(** * bookScrapper: the crawl-and-extract pipeline and the cleaning pass

    A shallow embedding of [scrapping/scrapper.py], [scrapping/config.py]
    and [processing/processor.py], followed by the properties of the
    pipeline that are stated about them.

    Conventions.
    - A Python [str] is a [string] holding its UTF-8 bytes; the pound sign
      (U+00A3) is therefore the two bytes 194, 163.
    - A pandas cell is missing ([NaN]), text, or a number.
    - Exceptions are values; a [try]/[except] is a [match] on them.
    - The network and the file system are read through explicit oracles,
      and every request, extraction call and write is appended to a log.
    - Library functions whose code is outside the repository are
      parameters: pandas' conversion of text to float64 in the cleaning
      pass, [urllib.parse.urljoin] in the crawl. *)

From Stdlib Require Import Ascii String QArith.
From stdpp Require Import gmap strings list fin_maps.

Local Open Scope string_scope.
Local Open Scope list_scope.

(** ** Python string primitives *)

Module PyStr.

(** [s.startswith(p)] *)
Definition startswith (s p : string) : bool := String.prefix p s.

(** [s.endswith(suf)] *)
Definition endswith (s suf : string) : bool :=
  let n := String.length s in
  let m := String.length suf in
  if (m <=? n)%nat then bool_decide (String.substring (n - m) m s = suf) else false.

(** [s[n:]] on a byte string *)
Fixpoint drop_bytes (n : nat) (s : string) : string :=
  match n, s with
  | O, _ => s
  | S _, EmptyString => EmptyString
  | S k, String _ r => drop_bytes k r
  end.

(** A UTF-8 continuation byte is 10xxxxxx, i.e. in 128..191. *)
Definition is_continuation (c : ascii) : bool :=
  let n := nat_of_ascii c in (128 <=? n)%nat && (n <=? 191)%nat.

Fixpoint skip_continuation (s : string) : string :=
  match s with
  | String c r => if is_continuation c then skip_continuation r else s
  | EmptyString => EmptyString
  end.

(** [s[1:]]: everything after the first character, which in UTF-8 is
    the first byte and the continuation bytes that follow it. *)
Definition drop_first_char (s : string) : string :=
  match s with
  | EmptyString => EmptyString
  | String _ r => skip_continuation r
  end.

(** [sub in s] *)
Fixpoint contains (sub s : string) : bool :=
  if String.prefix sub s then true
  else match s with
       | EmptyString => false
       | String _ r => contains sub r
       end.

(** [s.replace(old, new)] for a non-empty [old]: matches are taken from
    the left and do not overlap; [skip] counts the bytes of the match in
    progress that are still to be dropped. *)
Fixpoint replace_from (old new : string) (skip : nat) (s : string) : string :=
  match s with
  | EmptyString => EmptyString
  | String c r =>
      match skip with
      | S k => replace_from old new k r
      | O =>
          if String.prefix old s
          then new +:+ replace_from old new (String.length old - 1) r
          else String c (replace_from old new 0 r)
      end
  end.

Definition replace (s old new : string) : string := replace_from old new 0 s.

(** [s.lower()]. The ASCII capitals are lowered. Two other characters
    have an ASCII letter in their lower case and are lowered too: U+0130
    (bytes 196, 176) becomes i followed by U+0307 (bytes 204, 135), and
    U+212A (bytes 226, 132, 170) becomes k. The lower case of any other
    character has no ASCII letter in it, and its bytes are left as they
    are: a search for ASCII text in the result is not affected. *)
Definition lower_ascii (c : ascii) : ascii :=
  let n := nat_of_ascii c in
  if (65 <=? n)%nat && (n <=? 90)%nat then ascii_of_nat (n + 32) else c.

Fixpoint lower (s : string) : string :=
  match s with
  | EmptyString => EmptyString
  | String "196" (String "176" r) =>
      String "i" (String "204" (String "135" (lower r)))
  | String "226" (String "132" (String "170" r)) =>
      String "k" (lower r)
  | String c r => String (lower_ascii c) (lower r)
  end.

(** The number of bytes of the white-space character [s] starts with, or
    0 when it starts with none. White space is what [str.strip()]
    removes: U+0009 to U+000D, U+001C to U+0020, U+0085, U+00A0, U+1680,
    U+2000 to U+200A, U+2028, U+2029, U+202F, U+205F and U+3000. *)
Definition space_width (s : string) : nat :=
  match s with
  | EmptyString => 0
  | String c r =>
      let n := nat_of_ascii c in
      if ((9 <=? n)%nat && (n <=? 13)%nat) || ((28 <=? n)%nat && (n <=? 32)%nat)
      then 1
      else
        match r with
        | EmptyString => 0
        | String d r =>
            let m := nat_of_ascii d in
            if (n =? 194)%nat && ((m =? 133)%nat || (m =? 160)%nat) then 2
            else
              match r with
              | EmptyString => 0
              | String e _ =>
                  let k := nat_of_ascii e in
                  if (n =? 225)%nat && (m =? 154)%nat && (k =? 128)%nat then 3
                  else if (n =? 226)%nat && (m =? 128)%nat
                          && (((128 <=? k)%nat && (k <=? 138)%nat)
                              || (k =? 168)%nat || (k =? 169)%nat || (k =? 175)%nat)
                  then 3
                  else if (n =? 226)%nat && (m =? 129)%nat && (k =? 159)%nat then 3
                  else if (n =? 227)%nat && (m =? 128)%nat && (k =? 128)%nat then 3
                  else 0
              end
        end
  end.

(** [s.lstrip()]; [skip] counts the bytes still to drop of the
    white-space character being removed. *)
Fixpoint lstrip_from (skip : nat) (s : string) : string :=
  match s with
  | EmptyString => EmptyString
  | String _ r =>
      match skip with
      | S k => lstrip_from k r
      | O =>
          match space_width s with
          | O => s
          | S w => lstrip_from w r
          end
      end
  end.

Definition lstrip (s : string) : string := lstrip_from 0 s.

(** Whether [s] is white space only. *)
Fixpoint all_space_from (skip : nat) (s : string) : bool :=
  match s with
  | EmptyString => true
  | String _ r =>
      match skip with
      | S k => all_space_from k r
      | O =>
          match space_width s with
          | O => false
          | S w => all_space_from w r
          end
      end
  end.

(** [s.rstrip()]: cut where only white space follows. *)
Fixpoint rstrip (s : string) : string :=
  match s with
  | EmptyString => EmptyString
  | String c r => if all_space_from 0 s then EmptyString else String c (rstrip r)
  end.

Definition strip (s : string) : string := rstrip (lstrip s).

(** Truthiness of a [str]. *)
Definition truthy (s : string) : bool := negb (bool_decide (s = "")).

(** The pound sign, U+00A3, in UTF-8. *)
Definition pound : string := String "194"%char (String "163"%char EmptyString).

End PyStr.

(** ** Exceptions and results *)

Inductive exn : Type :=
| AttributeError
| KeyError
| TypeError
| ValueError
| OSError
| ParserError
| ArrowError
| RequestException
| OtherError.

Inductive result (A : Type) : Type :=
| Ret (a : A)
| Raise (e : exn).
Arguments Ret {A} a.
Arguments Raise {A} e.

(** [os.path.join(a, b)] on POSIX paths. *)
Definition os_path_join (a b : string) : string :=
  if PyStr.startswith b "/" then b
  else if bool_decide (a = "") || PyStr.endswith a "/" then a +:+ b
  else a +:+ "/" +:+ b.

(** What a handler returns: [statusCode] and the decoded JSON [body]. *)
Inductive Body : Type :=
| PathBody (message : string) (path : option string)
| ErrorBody (message : string) (error : exn).

Record Response : Type := mkResponse { statusCode : Z; body : Body }.

(** ** processing/processor.py *)

Module Processing.

(** A float64 value other than not-a-number. *)
Inductive number : Type :=
| Finite (q : Q)
| PosInf
| NegInf.

(** A cell of a DataFrame: missing ([None] or not-a-number), a [str],
    or a number. *)
Inductive cell : Type :=
| NaN
| Str (s : string)
| Num (x : number).

(** The dtype of a column as far as [.str] looks at it. *)
Inductive dtype : Type :=
| dt_object
| dt_numeric.

(** One row: the five columns the cleaner names and the other columns
    (such as Subcategory), which it carries along. *)
Record Row : Type := mkRow {
  Title : cell;
  Price : cell;
  Rating : cell;
  Availability : cell;
  URL : cell;
  Extra : list cell }.

(** A DataFrame: the names of its columns, the dtype of its Price
    column, and its rows. The cell a row holds for a column the frame
    does not have is never read. *)
Record DataFrame : Type := mkFrame {
  columns : list string;
  Price_dtype : dtype;
  rows : list Row }.

(** [c in df.columns] *)
Definition has_column (df : DataFrame) (c : string) : bool :=
  existsb (fun x => bool_decide (x = c)) (columns df).

Definition notna (c : cell) : bool :=
  match c with NaN => false | _ => true end.

Definition is_str (c : cell) : bool :=
  match c with Str _ => true | _ => false end.

(** [x >= 1] and [x <= 5] on a number; on a missing cell both are
    [False]. *)
Definition ge_one (c : cell) : bool :=
  match c with
  | Num (Finite q) => Qle_bool 1 q
  | Num PosInf => true
  | _ => false
  end.

Definition le_five (c : cell) : bool :=
  match c with
  | Num (Finite q) => Qle_bool q 5
  | Num NegInf => true
  | _ => false
  end.

(** [df.dropna(subset=['Title', 'Price', 'Rating', 'Availability', 'URL'])]:
    a [KeyError] when the frame lacks one of the five columns, else the
    rows with none of the five missing. *)
Definition subset : list string := ["Title"; "Price"; "Rating"; "Availability"; "URL"].

Definition complete (r : Row) : bool :=
  notna (Title r) && notna (Price r) && notna (Rating r)
  && notna (Availability r) && notna (URL r).

Definition dropna (df : DataFrame) : result DataFrame :=
  if forallb (has_column df) subset
  then Ret (mkFrame (columns df) (Price_dtype df) (List.filter complete (rows df)))
  else Raise KeyError.

(** The [.str] accessor is refused on a numeric column, and on an object
    column whose values are all numbers. *)
Definition str_accessor (dt : dtype) (col : list cell) : result unit :=
  match dt with
  | dt_numeric => Raise AttributeError
  | dt_object =>
      if forallb (fun c => negb (notna c)) col || existsb is_str col
      then Ret tt else Raise AttributeError
  end.

(** [.str.replace(old, new)] on one cell: only text is rewritten. *)
Definition str_replace (old new : string) (c : cell) : cell :=
  match c with
  | Str s => Str (PyStr.replace s old new)
  | _ => NaN
  end.

Section Cleaning.

(** pandas' conversion of text to float64; [None] is text that is
    not a number. *)
Variable str_to_float : string -> option number.

(** [pd.to_numeric(_, errors='coerce')] on one cell. *)
Definition to_numeric (c : cell) : cell :=
  match c with
  | NaN => NaN
  | Num x => Num x
  | Str s => match str_to_float s with Some x => Num x | None => NaN end
  end.

(** [lambda x: 'In Stock' if 'in stock' in str(x).lower() else 'Out of Stock'].
    The [str] of a number or of a missing value has no ['in stock']
    in it. *)
Definition availability_label (x : cell) : cell :=
  match x with
  | Str s =>
      if PyStr.contains "in stock" (PyStr.lower s)
      then Str "In Stock" else Str "Out of Stock"
  | _ => Str "Out of Stock"
  end.

Definition set_Price (f : cell -> cell) (r : Row) : Row :=
  mkRow (Title r) (f (Price r)) (Rating r) (Availability r) (URL r) (Extra r).

Definition set_Rating (f : cell -> cell) (r : Row) : Row :=
  mkRow (Title r) (Price r) (f (Rating r)) (Availability r) (URL r) (Extra r).

Definition set_Availability (f : cell -> cell) (r : Row) : Row :=
  mkRow (Title r) (Price r) (Rating r) (f (Availability r)) (URL r) (Extra r).

Definition rating_in_range (r : Row) : bool :=
  ge_one (Rating r) && le_five (Rating r).

Definition _clean_data (df : DataFrame) : result DataFrame :=
  (* Remove rows with missing critical information *)
  match dropna df with
  | Raise e => Raise e
  | Ret df =>
      (* Convert Price to numeric *)
      match str_accessor (Price_dtype df) (map Price (rows df)) with
      | Raise e => Raise e
      | Ret _ =>
          let rs := map (set_Price (fun c => to_numeric (str_replace PyStr.pound "" c)))
                        (rows df) in
          (* Ensure Rating is numeric and within 1-5 range *)
          let rs := map (set_Rating to_numeric) rs in
          let rs := List.filter rating_in_range rs in
          (* Clean Availability *)
          let rs := map (set_Availability availability_label) rs in
          Ret (mkFrame (columns df) dt_numeric rs)
      end
  end.

(** The world of the processing stage: what [pd.read_csv] gives for a
    path, whether [to_parquet] and [os.makedirs] succeed, the decoded
    [run_raw_data.json], and the directory named by
    [ProcessingConfig.PROCESSED_DATA_DIR]. *)
Record raw_data_file : Type := mkRawFile { rd_id : string; rd_path : string }.

Record Env : Type := mkEnv {
  read_csv : string -> result DataFrame;
  to_parquet : DataFrame -> string -> result unit;
  makedirs : string -> result unit;
  run_raw_data_json : result (list raw_data_file);
  PROCESSED_DATA_DIR : string }.

Variable env : Env.

Definition process_data (input_csv : string) : option string :=
  match read_csv env input_csv with
  | Raise _ => None
  | Ret df =>
      match _clean_data df with
      | Raise _ => None
      | Ret df =>
          let output_parquet :=
            os_path_join (PROCESSED_DATA_DIR env) "books_data.parquet" in
          match to_parquet env df output_parquet with
          | Raise _ => None
          | Ret _ => Some output_parquet
          end
      end
  end.

(** The [event] argument: the dictionary under ['processing_input'],
    when there is one. *)
Record Event : Type := mkEvent { processing_input : option (gmap string string) }.

Definition handler_body (event : Event) : result (option string) :=
  let processing_input := default ∅ (processing_input event) in
  let file_id := processing_input !! "raw_data_id" in
  match run_raw_data_json env with
  | Raise e => Raise e
  | Ret raw_data_files =>
      match List.find (fun f => bool_decide (Some (rd_id f) = file_id)) raw_data_files with
      | None => Raise ValueError
      | Some file_config =>
          match makedirs env (PROCESSED_DATA_DIR env) with
          | Raise e => Raise e
          | Ret _ => Ret (process_data (rd_path file_config))
          end
      end
  end.

Definition lambdaHandler (event : Event) : Response :=
  match handler_body event with
  | Ret parquet_path =>
      mkResponse 200 (PathBody "Processing completed successfully" parquet_path)
  | Raise e =>
      mkResponse 500 (ErrorBody "Processing failed" e)
  end.

End Cleaning.

End Processing.

(** ** urllib.parse.urljoin

    The scraper resolves links with the standard library's [urljoin],
    which returns an address or raises [ValueError]. The crawl below
    takes the function as a parameter. This module is the algorithm of
    CPython 3.11 on strings, used for the sample worlds: strip the
    leading control characters and spaces, remove tabs, carriage returns
    and line feeds, split both arguments into scheme, network location,
    path, parameters, query and fragment, refuse a network location with
    one bracket and not the other, merge the paths, remove the dot
    segments and put the pieces together again. Two checks of the
    network location go through the [ipaddress] module and the Unicode
    tables; their verdicts are parameters of the module. *)

Module UrlLib.

Definition uses_relative : list string :=
  [""; "ftp"; "http"; "gopher"; "nntp"; "imap"; "wais"; "file"; "https";
   "shttp"; "mms"; "prospero"; "rtsp"; "rtspu"; "sftp"; "svn"; "svn+ssh";
   "ws"; "wss"].

Definition uses_netloc : list string :=
  [""; "ftp"; "http"; "gopher"; "nntp"; "telnet"; "imap"; "wais"; "file";
   "mms"; "https"; "shttp"; "snews"; "prospero"; "rtsp"; "rtspu"; "rsync";
   "svn"; "svn+ssh"; "sftp"; "nfs"; "git"; "git+ssh"; "ws"; "wss"].

Definition uses_params : list string :=
  [""; "ftp"; "hdl"; "prospero"; "http"; "imap"; "https"; "shttp"; "rtsp";
   "rtspu"; "sip"; "sips"; "mms"; "sftp"; "tel"].

Definition mem (s : string) (l : list string) : bool :=
  existsb (fun x => bool_decide (x = s)) l.

Definition is_alpha (c : ascii) : bool :=
  let n := nat_of_ascii c in
  ((65 <=? n)%nat && (n <=? 90)%nat) || ((97 <=? n)%nat && (n <=? 122)%nat).

Definition is_digit (c : ascii) : bool :=
  let n := nat_of_ascii c in (48 <=? n)%nat && (n <=? 57)%nat.

(** [scheme_chars]: letters, digits, [+], [-] and [.] *)
Definition scheme_char (c : ascii) : bool :=
  is_alpha c || is_digit c
  || bool_decide (c = "+"%char) || bool_decide (c = "-"%char)
  || bool_decide (c = "."%char).

Fixpoint all_chars (p : ascii -> bool) (s : string) : bool :=
  match s with
  | EmptyString => true
  | String c r => p c && all_chars p r
  end.

(** [s.split(c, 1)]: the text before the first [c] and, when [c]
    occurs, the text after it. *)
Fixpoint split_first (c : ascii) (s : string) : string * option string :=
  match s with
  | EmptyString => (EmptyString, None)
  | String d r =>
      if bool_decide (d = c) then (EmptyString, Some r)
      else let '(a, b) := split_first c r in (String d a, b)
  end.

(** [s.split('/')] *)
Fixpoint split_slash (s : string) : list string :=
  match s with
  | EmptyString => [EmptyString]
  | String d r =>
      if bool_decide (d = "/"%char) then EmptyString :: split_slash r
      else match split_slash r with
           | x :: xs => String d x :: xs
           | [] => [String d EmptyString]
           end
  end.

(** ['/'.join(l)] *)
Fixpoint join_slash (l : list string) : string :=
  match l with
  | [] => EmptyString
  | [x] => x
  | x :: xs => x +:+ "/" +:+ join_slash xs
  end.

(** The scheme of [url], or [dflt], and what follows the colon. *)
Definition split_scheme (url dflt : string) : string * string :=
  match split_first ":" url with
  | (String c0 r as before, Some after) =>
      if is_alpha c0 && all_chars scheme_char before
      then (PyStr.lower before, after)
      else (dflt, url)
  | _ => (dflt, url)
  end.

(** [_splitnetloc(url, 2)]: the text between the leading [//] and the
    first of [/], [?], [#]. *)
Fixpoint take_netloc (s : string) : string * string :=
  match s with
  | EmptyString => (EmptyString, EmptyString)
  | String d r =>
      if bool_decide (d = "/"%char) || bool_decide (d = "?"%char)
         || bool_decide (d = "#"%char)
      then (EmptyString, s)
      else let '(a, b) := take_netloc r in (String d a, b)
  end.

Record SplitResult : Type := mkSplit {
  scheme : string; netloc : string; path : string;
  query : string; fragment : string }.

(** [_WHATWG_C0_CONTROL_OR_SPACE]: the characters up to U+0020. *)
Definition c0_control_or_space (c : ascii) : bool := (nat_of_ascii c <=? 32)%nat.

(** [s.lstrip(_WHATWG_C0_CONTROL_OR_SPACE)] *)
Fixpoint lstrip_c0 (s : string) : string :=
  match s with
  | EmptyString => EmptyString
  | String c r => if c0_control_or_space c then lstrip_c0 r else s
  end.

(** [s.rstrip(_WHATWG_C0_CONTROL_OR_SPACE)] *)
Fixpoint rstrip_c0 (s : string) : string :=
  match s with
  | EmptyString => EmptyString
  | String c r =>
      if all_chars c0_control_or_space s then EmptyString else String c (rstrip_c0 r)
  end.

(** [_UNSAFE_URL_BYTES_TO_REMOVE]: tab, carriage return and line feed,
    removed wherever they are. *)
Definition unsafe_byte (c : ascii) : bool :=
  let n := nat_of_ascii c in (n =? 9)%nat || (n =? 13)%nat || (n =? 10)%nat.

Fixpoint remove_unsafe (s : string) : string :=
  match s with
  | EmptyString => EmptyString
  | String c r => if unsafe_byte c then remove_unsafe r else String c (remove_unsafe r)
  end.

(** [s.isascii()] *)
Definition isascii (s : string) : bool :=
  all_chars (fun c => (nat_of_ascii c <? 128)%nat) s.

Section Checks.

(** [_check_bracketed_netloc], called on a network location that has
    both brackets, validates the host with [ipaddress]. *)
Variable _check_bracketed_netloc : string -> result unit.

(** What [_checknetloc] does with a network location that is not ASCII:
    it normalises it to NFKC and refuses it when that brings in one of
    the characters [/?#@:]. *)
Variable check_nfkc : string -> result unit.

Definition check_brackets (netloc : string) : result unit :=
  let opening := PyStr.contains "[" netloc in
  let closing := PyStr.contains "]" netloc in
  if (opening && negb closing) || (closing && negb opening) then Raise ValueError
  else if opening && closing then _check_bracketed_netloc netloc
  else Ret tt.

Definition _checknetloc (netloc : string) : result unit :=
  if negb (PyStr.truthy netloc) || isascii netloc then Ret tt
  else check_nfkc netloc.

Definition urlsplit (url dflt : string) : result SplitResult :=
  let url := remove_unsafe (lstrip_c0 url) in
  let dflt := remove_unsafe (rstrip_c0 (lstrip_c0 dflt)) in
  let '(scheme, url) := split_scheme url dflt in
  let '(netloc, url) :=
    if PyStr.startswith url "//" then take_netloc (PyStr.drop_bytes 2 url)
    else (EmptyString, url) in
  match check_brackets netloc with
  | Raise e => Raise e
  | Ret _ =>
      let '(url, fragment) := split_first "#" url in
      let '(url, query) := split_first "?" url in
      match _checknetloc netloc with
      | Raise e => Raise e
      | Ret _ => Ret (mkSplit scheme netloc url (default "" query) (default "" fragment))
      end
  end.

(** [url[:i]] and [url[i:]] for [i = url.rfind('/')] (the whole of
    [url] is the second part when it has no [/]); [_splitparams] cuts
    at the first [;] of the second part. *)
Fixpoint last_segment (s : string) : string * string :=
  match s with
  | EmptyString => (EmptyString, EmptyString)
  | String d r =>
      if PyStr.contains "/" r
      then let '(a, b) := last_segment r in (String d a, b)
      else (EmptyString, s)
  end.

Definition _splitparams (url : string) : string * string :=
  let '(head, tail) := last_segment url in
  match split_first ";" tail with
  | (a, Some b) => (head +:+ a, b)
  | (_, None) => (url, EmptyString)
  end.

Record ParseResult : Type := mkParse {
  p_scheme : string; p_netloc : string; p_path : string;
  p_params : string; p_query : string; p_fragment : string }.

Definition urlparse (url dflt : string) : result ParseResult :=
  match urlsplit url dflt with
  | Raise e => Raise e
  | Ret r =>
      let '(url, params) :=
        if mem (scheme r) uses_params && PyStr.contains ";" (path r)
        then _splitparams (path r)
        else (path r, EmptyString) in
      Ret (mkParse (scheme r) (netloc r) url params (query r) (fragment r))
  end.

Definition urlunsplit (scheme netloc url query fragment : string) : string :=
  let url :=
    if PyStr.truthy netloc
       || (PyStr.truthy scheme && mem scheme uses_netloc
           && negb (PyStr.startswith url "//"))
    then
      let url := if PyStr.truthy url && negb (PyStr.startswith url "/")
                 then "/" +:+ url else url in
      "//" +:+ netloc +:+ url
    else url in
  let url := if PyStr.truthy scheme then scheme +:+ ":" +:+ url else url in
  let url := if PyStr.truthy query then url +:+ "?" +:+ query else url in
  if PyStr.truthy fragment then url +:+ "#" +:+ fragment else url.

Definition urlunparse (p : ParseResult) : string :=
  let url := if PyStr.truthy (p_params p)
             then p_path p +:+ ";" +:+ p_params p else p_path p in
  urlunsplit (p_scheme p) (p_netloc p) url (p_query p) (p_fragment p).

(** [segments[1:-1] = filter(None, segments[1:-1])] *)
Definition drop_empty_middle (segments : list string) : list string :=
  match segments with
  | first :: (_ :: _) as rest =>
      first :: List.filter PyStr.truthy (removelast rest) ++ [List.last rest EmptyString]
  | _ => segments
  end.

(** The loop that removes [.] and [..] segments. *)
Fixpoint resolve_dots (segments resolved_path : list string) : list string :=
  match segments with
  | [] => resolved_path
  | seg :: rest =>
      if bool_decide (seg = "..") then resolve_dots rest (removelast resolved_path)
      else if bool_decide (seg = ".") then resolve_dots rest resolved_path
      else resolve_dots rest (resolved_path ++ [seg])
  end.

(** What [urljoin] does once both arguments are parsed. *)
Definition join_parsed (url : string) (b u : ParseResult) : string :=
  if negb (bool_decide (p_scheme u = p_scheme b)) || negb (mem (p_scheme u) uses_relative)
  then url
  else if mem (p_scheme u) uses_netloc && PyStr.truthy (p_netloc u)
  then urlunparse u
  else
    let netloc := if mem (p_scheme u) uses_netloc then p_netloc b else p_netloc u in
    if negb (PyStr.truthy (p_path u)) && negb (PyStr.truthy (p_params u))
    then
      let query := if PyStr.truthy (p_query u) then p_query u else p_query b in
      urlunparse (mkParse (p_scheme u) netloc (p_path b) (p_params b) query (p_fragment u))
    else
      let base_parts := split_slash (p_path b) in
      let base_parts :=
        if PyStr.truthy (List.last base_parts EmptyString)
        then removelast base_parts else base_parts in
      let segments :=
        if PyStr.startswith (p_path u) "/" then split_slash (p_path u)
        else drop_empty_middle (base_parts ++ split_slash (p_path u)) in
      let resolved_path := resolve_dots segments [] in
      let resolved_path :=
        let l := List.last segments EmptyString in
        if bool_decide (l = ".") || bool_decide (l = "..")
        then resolved_path ++ [EmptyString] else resolved_path in
      let joined := join_slash resolved_path in
      urlunparse (mkParse (p_scheme u) netloc
                    (if PyStr.truthy joined then joined else "/")
                    (p_params u) (p_query u) (p_fragment u)).

Definition urljoin (base url : string) : result string :=
  if negb (PyStr.truthy base) then Ret url
  else if negb (PyStr.truthy url) then Ret base
  else
    match urlparse base "" with
    | Raise e => Raise e
    | Ret b =>
        match urlparse url (p_scheme b) with
        | Raise e => Raise e
        | Ret u => Ret (join_parsed url b u)
        end
    end.

End Checks.

End UrlLib.

(** ** scrapping/config.py and scrapping/scrapper.py *)

Module Scrapping.

(** The attributes of the class [ScrapingConfig] that the scraper
    reads. [MAX_PAGES] is read by [scrape_books] and defined nowhere,
    so it is optional here: [None] is the class without the attribute,
    and reading it raises [AttributeError]. *)
Record ScrapingConfig : Type := mkConfig {
  MAX_RETRIES : nat;
  REQUEST_TIMEOUT : nat;
  BASE_URL : string;
  MAX_PAGES : option nat }.

(** The class as config.py defines it. *)
Definition config_py : ScrapingConfig :=
  mkConfig 3 10 "http://books.toscrape.com/" None.

(** The dictionary [_extract_book_details] returns. *)
Record BookDetails : Type := mkBook {
  Title : string;
  Price : string;
  Rating : Z;
  Availability : string;
  URL : string;
  Subcategory : string }.

(** What [_extract_book_details] reads from one
    [<article class="product_pod">]; a field is [None] when the chain of
    [find] calls and subscripts that reaches it raises. The function
    returns [None] when any of them raises, or [urljoin] does. *)
Record book_node : Type := mkNode {
  a_title : option string;          (* book.find('h3').find('a')['title'] *)
  price_color_text : option string; (* ...find('p', class_='price_color').text *)
  star_rating_class : option string;(* book.find('p', class_='star-rating')['class'][1] *)
  instock_text : option string;     (* ...find('p', class_='instock availability').text *)
  a_href : option string }.         (* book.find('h3').find('a')['href'] *)

(** A link of the category navigation: whether its [li] is marked
    [active], and its text. *)
Record nav_link : Type := mkNav { active : bool; nav_text : string }.

(** What the scraper reads from a parsed page. *)
Record soup : Type := mkSoup {
  (* soup.find_all('article', class_='product_pod') *)
  product_pods : list book_node;
  (* soup.find('li', class_='next'), and its find('a')['href'] when that
     does not raise *)
  li_next : option (option string);
  (* detail_soup.find('ul', class_='breadcrumb'), and the texts of its
     find_all('li') *)
  breadcrumb : option (list string);
  (* detail_soup.select('ul.nav-list > li > ul > li > a') *)
  category_nav : list nav_link }.

(** The outcome of [requests.get(url, timeout=...)] followed by
    [raise_for_status()]: a page, a [RequestException] (no connection,
    timeout, or a status that is not a success), or another exception. *)
Inductive response : Type :=
| Page (s : soup)
| TransportError
| BadStatus (code : Z)
| Crash.

Definition is_request_exception (r : response) : bool :=
  match r with TransportError | BadStatus _ => true | _ => false end.

Inductive fetch_kind : Type := Listing | Detail.

(** The log of a run. *)
Inductive event : Type :=
| Fetch (k : fetch_kind) (url : string) (r : response)
| Extract (book : book_node) (details : option BookDetails)
| WriteCsv (csv_path : string) (books_data : list BookDetails) (ok : bool).

Definition trace : Type := list event.

Definition is_fetch (e : event) : bool :=
  match e with Fetch _ _ _ => true | _ => false end.

Definition is_listing_fetch (e : event) : bool :=
  match e with Fetch Listing _ _ => true | _ => false end.

Definition is_detail_fetch (e : event) : bool :=
  match e with Fetch Detail _ _ => true | _ => false end.

(** The pages the listing requests of a log returned. *)
Fixpoint listing_pages (tr : trace) : list soup :=
  match tr with
  | Fetch Listing _ (Page s) :: tr => s :: listing_pages tr
  | _ :: tr => listing_pages tr
  | [] => []
  end.

(** The entries [_extract_book_details] was called on, and the
    dictionaries it returned. *)
Fixpoint extract_calls (tr : trace) : list book_node :=
  match tr with
  | Extract book _ :: tr => book :: extract_calls tr
  | _ :: tr => extract_calls tr
  | [] => []
  end.

Fixpoint extracted (tr : trace) : list BookDetails :=
  match tr with
  | Extract _ (Some d) :: tr => d :: extracted tr
  | _ :: tr => extracted tr
  | [] => []
  end.

(** [rating_map] *)
Definition rating_map : gmap string Z :=
  list_to_map [("One", 1%Z); ("Two", 2%Z); ("Three", 3%Z); ("Four", 4%Z); ("Five", 5%Z)].

(** Strategy 1: the third entry of the breadcrumb. *)
Definition via_breadcrumb (detail_soup : soup) (subcategory : string) : string :=
  match breadcrumb detail_soup with
  | Some lis =>
      if (3 <=? length lis)%nat
      then PyStr.strip (nth 2 lis EmptyString) else subcategory
  | None => subcategory
  end.

(** Strategy 2: the active entry of the category navigation, tried when
    the subcategory is still ["Unknown"]. *)
Definition via_nav_list (detail_soup : soup) (subcategory : string) : string :=
  if bool_decide (subcategory = "Unknown") then
    match category_nav detail_soup with
    | [] => subcategory
    | _ :: _ =>
        match List.filter active (category_nav detail_soup) with
        | current :: _ => PyStr.strip (nav_text current)
        | [] => subcategory
        end
    end
  else subcategory.

(** How the retry loop was left. *)
Inductive loop_exit : Type :=
| Exhausted          (* the loop condition became false *)
| Found              (* break *)
| Raised (e : exn).  (* an exception left the loop *)

Section World.

(** The class read by the scraper, the network (the response to the
    [i]-th request of the run when it asks for [url]), the library's
    [urljoin] (an address, or the exception it raises), whether
    [books_data.csv] can be opened for writing, and the directory
    [raw_data]. *)
Variable cfg : ScrapingConfig.
Variable net : nat -> string -> response.
Variable urljoin : string -> string -> result string.
Variable csv_writable : bool.
Variable raw_data_dir : string.

(** The product URL of an entry: the link as it is when its text
    starts with "http", else what [urljoin] returns or raises. *)
Definition product_url_of (base_url relative_url : string) : result string :=
  if PyStr.startswith relative_url "http" then Ret relative_url
  else
    let cleaned_relative_url :=
      if PyStr.startswith relative_url "../"
      then PyStr.drop_bytes 3 relative_url else relative_url in
    if PyStr.endswith base_url "/catalogue/"
    then urljoin base_url cleaned_relative_url
    else urljoin base_url ("catalogue/" +:+ cleaned_relative_url).

Definition requests_get (k : fetch_kind) (url : string) (tr : trace)
  : response * trace :=
  let r := net (length (List.filter is_fetch tr)) url in
  (r, tr ++ [Fetch k url r]).

(** The [while retries < ScrapingConfig.MAX_RETRIES] loop. [fuel]
    bounds the iterations of the model; [None] is a run that needs
    more. The result is how the loop was left, the value of
    [subcategory] then, and the log. *)
Fixpoint retry_loop (fuel : nat) (product_url : string) (retries : nat)
    (subcategory : string) (tr : trace)
  : option (loop_exit * string * trace) :=
  if (retries <? MAX_RETRIES cfg)%nat then
    match fuel with
    | O => None
    | S fuel =>
        let '(detail_page, tr) := requests_get Detail product_url tr in
        match detail_page with
        | Page detail_soup =>
            let subcategory := via_breadcrumb detail_soup subcategory in
            let subcategory := via_nav_list detail_soup subcategory in
            if negb (bool_decide (subcategory = "Unknown"))
            then Some (Found, subcategory, tr)
            else retry_loop fuel product_url (retries + 1) subcategory tr
        | TransportError | BadStatus _ =>
            let retries := retries + 1 in
            if (MAX_RETRIES cfg <=? retries)%nat
            then Some (Raised RequestException, subcategory, tr)
            else retry_loop fuel product_url retries subcategory tr
        | Crash => Some (Raised OtherError, subcategory, tr)
        end
    end
  else Some (Exhausted, subcategory, tr).

(** The subcategory of a book: the retry loop inside the [try] whose
    handler only logs. *)
Definition resolve_subcategory (product_url : string) (tr : trace)
  : option (string * trace) :=
  match retry_loop (MAX_RETRIES cfg) product_url 0 "Unknown" tr with
  | Some (_, subcategory, tr) => Some (subcategory, tr)
  | None => None
  end.

Definition _extract_book_details (base_url : string) (book : book_node)
    (tr : trace) : option (option BookDetails * trace) :=
  match a_title book, price_color_text book, star_rating_class book,
        instock_text book, a_href book with
  | Some title, Some price_text, Some rating_class,
    Some availability_text, Some relative_url =>
      let price := PyStr.drop_first_char price_text in
      let rating := default 0%Z (rating_map !! rating_class) in
      let availability := PyStr.strip availability_text in
      match product_url_of base_url relative_url with
      | Ret product_url =>
          match resolve_subcategory product_url tr with
          | Some (subcategory, tr) =>
              let d := mkBook title price rating availability product_url subcategory in
              Some (Some d, tr ++ [Extract book (Some d)])
          | None => None
          end
      | Raise _ => Some (None, tr ++ [Extract book None]) (* except Exception *)
      end
  | _, _, _, _, _ => Some (None, tr ++ [Extract book None])   (* except Exception *)
  end.

(** [for book in books: ...] *)
Fixpoint extract_books (base_url : string) (books : list book_node)
    (books_data : list BookDetails) (tr : trace)
  : option (list BookDetails * trace) :=
  match books with
  | [] => Some (books_data, tr)
  | book :: books =>
      match _extract_book_details base_url book tr with
      | Some (Some book_details, tr) =>
          extract_books base_url books (books_data ++ [book_details]) tr
      | Some (None, tr) => extract_books base_url books books_data tr
      | None => None
      end
  end.

(** The [while page_url and page_count < ScrapingConfig.MAX_PAGES]
    loop: [Ret books_data] when it ends by its condition or by
    [break], [Raise] when an exception leaves it. [fuel] bounds the
    iterations of the model, as in [retry_loop]. *)
Fixpoint crawl_loop (fuel : nat) (base_url : string) (page_url : option string)
    (page_count : nat) (books_data : list BookDetails) (tr : trace)
  : option (result (list BookDetails) * trace) :=
  match page_url with
  | None => Some (Ret books_data, tr)
  | Some url =>
      if negb (PyStr.truthy url) then Some (Ret books_data, tr)
      else
        match MAX_PAGES cfg with
        | None => Some (Raise AttributeError, tr)
        | Some max_pages =>
            if (page_count <? max_pages)%nat then
              match fuel with
              | O => None
              | S fuel =>
                  let '(response, tr) := requests_get Listing url tr in
                  match response with
                  | TransportError | BadStatus _ => Some (Ret books_data, tr)
                  | Crash => Some (Raise OtherError, tr)
                  | Page soup =>
                      match extract_books base_url (product_pods soup) books_data tr with
                      | None => None
                      | Some (books_data, tr) =>
                          match li_next soup with
                          | Some (Some next_page_link) =>
                              match urljoin url next_page_link with
                              | Ret page_url =>
                                  crawl_loop fuel base_url (Some page_url)
                                    (page_count + 1) books_data tr
                              | Raise e => Some (Raise e, tr)
                              end
                          | Some None => Some (Raise TypeError, tr)
                          | None =>
                              crawl_loop fuel base_url None page_count books_data tr
                          end
                      end
                  end
              end
            else Some (Ret books_data, tr)
        end
  end.

Definition csv_path : string := os_path_join raw_data_dir "books_data.csv".

(** [scrape_books]: the path of the file written, or [None]. *)
Definition scrape_books (base_url : string) (tr : trace)
  : option (option string * trace) :=
  match crawl_loop (default 0%nat (MAX_PAGES cfg))
                   base_url (Some base_url) 0 [] tr with
  | None => None
  | Some (Raise _, tr) => Some (None, tr)
  | Some (Ret books_data, tr) =>
      Some (if csv_writable then Some csv_path else None,
            tr ++ [WriteCsv csv_path books_data csv_writable])
  end.

(** The [event] argument, the decoded [run_scrapper.json] and the
    outcome of [os.makedirs] in the constructor. *)
Record scraper_config : Type := mkScraper { sc_id : string; sc_url : string }.

Record Event : Type := mkEvent { scraper_input : option (gmap string string) }.

Variable run_scrapper_json : result (list scraper_config).
Variable makedirs : result unit.

Definition handler_body (event : Event) (tr : trace)
  : option (result (option string) * trace) :=
  let scraper_input := default ∅ (scraper_input event) in
  let scraper_id := scraper_input !! "run_scraper_id" in
  match run_scrapper_json with
  | Raise e => Some (Raise e, tr)
  | Ret scrapers =>
      match List.find (fun s => bool_decide (Some (sc_id s) = scraper_id)) scrapers with
      | None => Some (Raise ValueError, tr)
      | Some scraper_config =>
          match makedirs with
          | Raise e => Some (Raise e, tr)
          | Ret _ =>
              match scrape_books (sc_url scraper_config) tr with
              | None => None
              | Some (csv_path, tr) => Some (Ret csv_path, tr)
              end
          end
      end
  end.

(** Truthiness of [csv_path]: [None] and the empty string are false. *)
Definition path_truthy (p : option string) : bool :=
  match p with Some s => PyStr.truthy s | None => false end.

Definition lambdaHandler (event : Event) (tr : trace)
  : option (Response * trace) :=
  match handler_body event tr with
  | None => None
  | Some (Ret csv_path, tr) =>
      Some (mkResponse (if path_truthy csv_path then 200 else 500)
              (PathBody (if path_truthy csv_path
                         then "Scraping completed successfully"
                         else "Scraping failed") csv_path), tr)
  | Some (Raise e, tr) =>
      Some (mkResponse 500 (ErrorBody "Scraping failed" e), tr)
  end.

End World.

End Scrapping.

(** ** Sample inputs *)

Module Sample.
Import Processing.

(** A text-to-number conversion for plain decimal literals: an optional
    sign, digits, and an optional fraction. On the texts below it gives
    what pandas gives. *)
Fixpoint read_digits (s : string) (acc : N) (count : nat) : N * nat * string :=
  match s with
  | String c r =>
      if UrlLib.is_digit c
      then read_digits r (acc * 10 + (N_of_ascii c - 48)) (S count)
      else (acc, count, s)
  | EmptyString => (acc, count, EmptyString)
  end.

Definition signed (neg : bool) (n : N) (scale : nat) : number :=
  let z := Z.of_N n in
  Finite (Qred ((if neg then - z else z)%Z # Pos.pow 10 (Pos.of_nat scale) )).

Definition plain_decimal (s : string) : option number :=
  let '(neg, s) :=
    match s with
    | String "-" r => (true, r)
    | String "+" r => (false, r)
    | _ => (false, s)
    end in
  let '(n, n1, rest) := read_digits s 0 0 in
  match rest with
  | EmptyString =>
      if (n1 =? 0)%nat then None
      else Some (Finite (inject_Z (if neg then - Z.of_N n else Z.of_N n)))
  | String "." r =>
      let '(m, n2, rest) := read_digits r n 0 in
      match rest with
      | EmptyString =>
          if (n1 + n2 =? 0)%nat then None
          else if (n2 =? 0)%nat
               then Some (Finite (inject_Z (if neg then - Z.of_N m else Z.of_N m)))
               else Some (signed neg m n2)
      | _ => None
      end
  | _ => None
  end.

Definition text_row (title price : string) (rating : Z) (availability url : string) : Row :=
  mkRow (Str title) (Str price) (Num (Finite (inject_Z rating)))
        (Str availability) (Str url) [].

(** The columns of the scenario. *)
Definition book_columns : list string :=
  ["Title"; "Price"; "Rating"; "Availability"; "URL"].

(** The four rows of the scenario: Book1 is valid, Book2 has Rating 6,
    Book3 has Price "invalid", Book4 has no Title and no Availability. *)
Definition scenario : DataFrame :=
  mkFrame book_columns dt_object
    [ text_row "Book1" "10.00" 4 "in stock" "u1";
      text_row "Book2" "15.50" 6 "out of stock" "u2";
      text_row "Book3" "invalid" 3 "in stock" "u3";
      mkRow NaN (Str "20.00") (Num (Finite (inject_Z 2))) NaN (Str "u4") [] ].

Definition book1_cleaned : Row :=
  mkRow (Str "Book1") (Num (Finite (inject_Z 10))) (Num (Finite (inject_Z 4)))
        (Str "In Stock") (Str "u1") [].

Definition book3_cleaned : Row :=
  mkRow (Str "Book3") NaN (Num (Finite (inject_Z 3)))
        (Str "In Stock") (Str "u3") [].

(** One row with a negative price behind the pound sign and the rating
    three and a half. *)
Definition discounted : DataFrame :=
  mkFrame book_columns dt_object
    [ mkRow (Str "Book5") (Str (PyStr.pound +:+ "-5.00")) (Num (Finite (7 # 2)))
            (Str "In stock") (Str "u5") [] ].

Definition book5_cleaned : Row :=
  mkRow (Str "Book5") (Num (Finite (inject_Z (-5)))) (Num (Finite (7 # 2)))
        (Str "In Stock") (Str "u5") [].

(** A processing world in which run_raw_data.json names one file, and
    that file is not there. *)
Definition missing_file_env : Env :=
  mkEnv (fun _ => Raise OSError)
        (fun _ _ => Ret tt)
        (fun _ => Ret tt)
        (Ret [mkRawFile "102" "raw_data/books_data.csv"])
        "processed_data".

Definition event_102 : Event :=
  mkEvent (Some {[ "raw_data_id" := "102" ]}).

End Sample.

Module Web.
Import Scrapping.

(** A network on which nothing answers. *)
Definition net_down : nat -> string -> response := fun _ _ => TransportError.

(** The library of the sample worlds. No address of the samples has a
    bracket or a character outside ASCII in its network location, so
    the two checks the algorithm takes as parameters are not reached. *)
Definition urljoin : string -> string -> result string :=
  UrlLib.urljoin (fun _ => Ret tt) (fun _ => Ret tt).

(** One entry of a listing page, priced at 51.77 pounds. *)
Definition attic : book_node :=
  mkNode (Some "A Light in the Attic")
         (Some (PyStr.pound +:+ "51.77"))
         (Some "Three")
         (Some "   In stock   ")
         (Some "a-light-in-the-attic_1000/index.html").

Definition attic_url : string :=
  "http://books.toscrape.com/catalogue/a-light-in-the-attic_1000/index.html".

(** An entry with all its pieces whose link is [href]. *)
Definition entry_linked (href : string) : book_node :=
  mkNode (Some "Book") (Some (PyStr.pound +:+ "10.00")) (Some "One")
         (Some "In stock") (Some href).

Definition attic_details (subcategory : string) : BookDetails :=
  mkBook "A Light in the Attic" "51.77" 3 "In stock" attic_url subcategory.

(** The first listing page: one entry and a link to the second page. *)
Definition page_1 : soup := mkSoup [attic] (Some (Some "catalogue/page-2.html")) None [].

(** The detail page of the entry, with its breadcrumb. *)
Definition attic_page : soup :=
  mkSoup [] None (Some ["Home"; "Books"; " Poetry "; "A Light in the Attic"]) [].

Definition home : string := "http://books.toscrape.com/".

(** A site whose first page and detail page answer, and whose second
    page does not. *)
Definition site : nat -> string -> response :=
  fun _ url =>
    if bool_decide (url = home) then Page page_1
    else if bool_decide (url = attic_url) then Page attic_page
    else BadStatus 503.

(** The shipped class with a page ceiling added. *)
Definition config_with_ceiling (n : nat) : ScrapingConfig :=
  mkConfig 3 10 "http://books.toscrape.com/" (Some n).

Definition page_2_url : string := "http://books.toscrape.com/catalogue/page-2.html".

(** The log of a crawl of the site from its home page: the first page,
    the detail page of its entry, the extraction, the second page that
    fails, and the writing of the file. *)
Definition interrupted_run : trace :=
  [ Fetch Listing home (Page page_1);
    Fetch Detail attic_url (Page attic_page);
    Extract attic (Some (attic_details "Poetry"));
    Fetch Listing page_2_url (BadStatus 503);
    WriteCsv "raw_data/books_data.csv" [attic_details "Poetry"] true ].

Definition run_scrapper_json : result (list scraper_config) :=
  Ret [mkScraper "102" home].

Definition event_102 : Event :=
  mkEvent (Some {[ "run_scraper_id" := "102" ]}).

(** A configuration file whose scraper has the empty address. *)
Definition run_scrapper_json_empty : result (list scraper_config) :=
  Ret [mkScraper "102" ""].

End Web.

(** ** Predicates used in the statements *)

Module CleanSpec.
Import Processing.

(** A cell that holds a number between 1 and 5. *)
Definition rating_in_1_5 (c : cell) : Prop :=
  exists q, c = Num (Finite q) /\ (1 <= q)%Q /\ (q <= 5)%Q.

(** A cell that holds a whole number. *)
Definition whole (c : cell) : Prop :=
  exists (q : Q) (z : Z), c = Num (Finite q) /\ (q == inject_Z z)%Q.

(** A cell that holds a number that is not negative. *)
Definition non_negative (c : cell) : Prop :=
  exists q, c = Num (Finite q) /\ (0 <= q)%Q.

(** A cell that holds a number, or the not-a-number placeholder. *)
Definition number_or_nan (c : cell) : Prop :=
  c = NaN \/ exists x, c = Num x.

Definition availability_normalised (c : cell) : Prop :=
  c = Str "In Stock" \/ c = Str "Out of Stock".

(** The three field constraints of a cleaned record, as stated: a whole
    Rating in [1,5], a Price that is a number and not negative, and a
    normalised Availability. *)
Definition fully_valid (r : Row) : Prop :=
  (rating_in_1_5 (Rating r) /\ whole (Rating r))
  /\ non_negative (Price r)
  /\ availability_normalised (Availability r).

(** What the cleaner makes of a row it keeps. *)
Definition clean_row (str_to_float : string -> option number) (r : Row) : Row :=
  set_Availability availability_label
    (set_Rating (to_numeric str_to_float)
       (set_Price (fun c => to_numeric str_to_float (str_replace PyStr.pound "" c)) r)).

(** The rows the cleaner keeps: nothing missing, and a Rating that
    converts to a number in range. *)
Definition kept (str_to_float : string -> option number) (r : Row) : bool :=
  complete r && rating_in_range (set_Rating (to_numeric str_to_float) r).

(** Two rows that are the same record: same Title, URL and other
    columns. *)
Definition same_record (o i : Row) : Prop :=
  Title o = Title i /\ URL o = URL i /\ Extra o = Extra i.

End CleanSpec.

Module CrawlSpec.
Import Scrapping.

(** The page ceiling: the value of [MAX_PAGES] when it is defined. *)
Definition ceiling (cfg : ScrapingConfig) : nat := default 0%nat (MAX_PAGES cfg).

(** The responses to the listing requests of a log, in order. *)
Fixpoint listing_responses (tr : trace) : list response :=
  match tr with
  | Fetch Listing _ r :: tr => r :: listing_responses tr
  | _ :: tr => listing_responses tr
  | [] => []
  end.

(** A request for the detail page [url]. *)
Definition detail_fetch_of (url : string) (e : event) : Prop :=
  exists r, e = Fetch Detail url r.

(** Every request for [url] fails with a [RequestException]. *)
Definition always_fails (net : nat -> string -> response) (url : string) : Prop :=
  forall i, is_request_exception (net i url) = true.

(** Joining a next-page link to the address of the page that carries
    it never gives the empty string. *)
Definition links_join (urljoin : string -> string -> result string)
    (net : nat -> string -> response) : Prop :=
  forall i url s href next,
    net i url = Page s -> li_next s = Some (Some href) ->
    urljoin url href = Ret next -> PyStr.truthy next = true.


Definition failed (r : response) : Prop := is_request_exception r = true.

(** What holds of a run of the crawl loop that starts with the page
    counter at [pc], the address [page_url] and the records [bd], and
    ends with the result [r] after the events [evs]. *)
Definition crawl_invariant (urljoin : string -> string -> result string)
    (net : nat -> string -> response) (max pc : nat)
    (page_url : option string) (bd : list BookDetails)
    (r : result (list BookDetails)) (evs : trace) : Prop :=
  (* the address is requested first when the loop condition holds *)
  (forall url, page_url = Some url -> PyStr.truthy url = true -> pc < max ->
               exists resp evs', evs = Fetch Listing url resp :: evs')
  (* and no more pages than the ceiling leaves *)
  /\ length (listing_responses evs) <= max - pc
  (* every entry of every page received went through the extractor *)
  /\ extract_calls evs = flat_map product_pods (listing_pages evs)
  (* the records are the ones held at the start and the ones extracted *)
  /\ (forall bd', r = Ret bd' -> bd' = bd ++ extracted evs)
  (* a failed listing request is the last event, and the records
     extracted before it are the result *)
  /\ (Exists failed (listing_responses evs) ->
      exists pre u resp,
        evs = pre ++ [Fetch Listing u resp] /\ failed resp
        /\ Forall (fun x => ~ failed x) (listing_responses pre)
        /\ r = Ret (bd ++ extracted pre))
  (* a listing request is followed by another only through a next link *)
  /\ (forall rs1 resp rs2,
        listing_responses evs = rs1 ++ resp :: rs2 -> rs2 <> [] ->
        exists s h, resp = Page s /\ li_next s = Some (Some h))
  (* a run that ends on a page received, without an exception, ends
     because the page has no next link or the ceiling is reached *)
  /\ (links_join urljoin net ->
      forall bd' rs s,
        r = Ret bd' -> listing_responses evs = rs ++ [Page s] ->
        li_next s = None \/ length (listing_responses evs) = max - pc).

(** [s[3:]] when [s] starts with the parent segment, else [s]. *)
Definition without_parent_segment (href : string) : string :=
  if PyStr.startswith href "../" then PyStr.drop_bytes 3 href else href.

(** The catalogue segment, when the base does not end with one. *)
Definition catalogue_segment (base_url : string) : string :=
  if PyStr.endswith base_url "/catalogue/" then "" else "catalogue/".

End CrawlSpec.
(** ** Further predicates and samples *)

Module CleanMore.
Import Processing.

(** The row [r] with its Title missing. *)
Definition without_title (r : Row) : Row :=
  mkRow NaN (Price r) (Rating r) (Availability r) (URL r) (Extra r).

(** The identifier an event asks for, when it names one. *)
Definition asked_id (event : Event) : option string :=
  default ∅ (processing_input event) !! "raw_data_id".

(** Where the cleaned dataset goes. *)
Definition destination (env : Env) : string :=
  os_path_join (PROCESSED_DATA_DIR env) "books_data.parquet".

(** An event without the key ['processing_input']. *)
Definition empty_event : Event := mkEvent None.

(** A processing world whose one raw file holds the scenario. *)
Definition scenario_env : Env :=
  mkEnv (fun path => if bool_decide (path = "raw_data/books_data.csv")
                     then Ret Sample.scenario else Raise OSError)
        (fun _ _ => Ret tt)
        (fun _ => Ret tt)
        (Ret [mkRawFile "102" "raw_data/books_data.csv";
              mkRawFile "102" "raw_data/other.csv"])
        "processed_data".

End CleanMore.

Module CrawlMore.
Import Scrapping CrawlSpec.

(** The label the two strategies find on a page when the subcategory is
    still "Unknown". *)
Definition label (s : soup) : string :=
  via_nav_list s (via_breadcrumb s "Unknown").

(** A response that leaves the subcategory unknown and the retry loop
    running: a [RequestException], or a page on which neither strategy
    finds a label. *)
Definition no_label (r : response) : Prop :=
  failed r \/ exists s, r = Page s /\ label s = "Unknown".

(** The number of requests a log holds. *)
Definition requests_so_far (tr : trace) : nat := length (List.filter is_fetch tr).

(** The events of [k] requests for the detail page [url] in a row, the
    first of them being request number [n] of the run. *)
Definition detail_requests (net : nat -> string -> response) (url : string)
    (n k : nat) : trace :=
  map (fun j => Fetch Detail url (net (n + j) url)) (seq 0 k).

(** The five rating words. *)
Definition rating_words : list string := ["One"; "Two"; "Three"; "Four"; "Five"].

(** What a record holds apart from its Subcategory. *)
Definition fields (d : BookDetails) : string * string * Z * string * string :=
  (Title d, Price d, Rating d, Availability d, URL d).

(** The same five values computed from an entry that has all it takes,
    and nothing for an entry that lacks a piece or whose link [urljoin]
    refuses. *)
Definition entry_fields (urljoin : string -> string -> result string)
    (base_url : string) (book : book_node)
  : option (string * string * Z * string * string) :=
  match a_title book, price_color_text book, star_rating_class book,
        instock_text book, a_href book with
  | Some title, Some price_text, Some rating_class,
    Some availability_text, Some relative_url =>
      match product_url_of urljoin base_url relative_url with
      | Ret product_url =>
          Some (title, PyStr.drop_first_char price_text,
                default 0%Z (rating_map !! rating_class),
                PyStr.strip availability_text,
                product_url)
      | Raise _ => None
      end
  | _, _, _, _, _ => None
  end.

Definition is_write (e : event) : bool :=
  match e with WriteCsv _ _ _ => true | _ => false end.

(** The listing requests of a log: address and response. *)
Fixpoint listing_requests (tr : trace) : list (string * response) :=
  match tr with
  | Fetch Listing u r :: tr => (u, r) :: listing_requests tr
  | _ :: tr => listing_requests tr
  | [] => []
  end.

(** Listing requests that follow the next links from [url]: the first
    asks for [url], and each next one asks for the address [urljoin]
    returns for the address of the page before it and the next link of
    that page. *)
Fixpoint link_chain (urljoin : string -> string -> result string)
    (url : string) (l : list (string * response)) : Prop :=
  match l with
  | [] => True
  | (u, r) :: l' =>
      u = url
      /\ match l' with
         | [] => True
         | _ :: _ =>
             exists s h next,
               r = Page s /\ li_next s = Some (Some h)
               /\ urljoin url h = Ret next
               /\ link_chain urljoin next l'
         end
  end.

(** What the extraction of the entries [books] of one page leaves in the
    log: one extraction per entry, in order, no listing request, no
    write, and at most [MAX_RETRIES] detail requests per entry. *)
Definition entries_block (cfg : ScrapingConfig) (books : list book_node)
    (evs : trace) : Prop :=
  extract_calls evs = books
  /\ listing_requests evs = []
  /\ listing_pages evs = []
  /\ List.filter is_write evs = []
  /\ length (List.filter is_detail_fetch evs) <= MAX_RETRIES cfg * length books.

(** A page whose next-page element has no link to follow. *)
Definition broken_next (s : soup) : Prop := li_next s = Some None.

(** A listing request answered by a page whose next link [urljoin]
    refuses to join to the address of the page. *)
Definition next_link_refused (urljoin : string -> string -> result string)
    (request : string * response) : Prop :=
  exists s h e,
    snd request = Page s /\ li_next s = Some (Some h)
    /\ urljoin (fst request) h = Raise e.

(** What holds of a run of the crawl loop under the ceiling [max], from
    the page counter [pc], the address [page_url] and the records [bd],
    to the result [r] after the events [evs]. *)
Definition run_facts (cfg : ScrapingConfig)
    (urljoin : string -> string -> result string) (base : string) (max : nat)
    (page_url : option string) (pc : nat) (bd : list BookDetails)
    (r : result (list BookDetails)) (evs : trace) : Prop :=
  (* the loop writes nothing *)
  List.filter is_write evs = []
  (* at most MAX_RETRIES detail requests for each entry extracted *)
  /\ length (List.filter is_detail_fetch evs)
     <= MAX_RETRIES cfg * length (extract_calls evs)
  (* no more listing requests than the ceiling leaves *)
  /\ length (listing_requests evs) <= max - pc
  (* the listing requests follow the next links *)
  /\ match page_url with
     | Some url => link_chain urljoin url (listing_requests evs)
     | None => listing_requests evs = []
     end
  (* an exception leaves the loop exactly when a page has a next-page
     element without a link, or a listing request raised something else
     than a RequestException, or urljoin refused a next link *)
  /\ ((Exists broken_next (listing_pages evs) \/ In Crash (listing_responses evs)
       \/ Exists (next_link_refused urljoin) (listing_requests evs))
      <-> exists e, r = Raise e)
  (* the records extracted are the entries that have all their pieces
     and a link urljoin accepts, in the order of the pages and of the
     entries on them *)
  /\ map fields (extracted evs)
     = omap (entry_fields urljoin base) (flat_map product_pods (listing_pages evs))
  (* and the result holds them after the records held at the start *)
  /\ (forall bd', r = Ret bd' -> bd' = bd ++ extracted evs).


(** The identifier an event asks for, when it names one. *)
Definition asked_scraper (event : Event) : option string :=
  default ∅ (scraper_input event) !! "run_scraper_id".

(** A listing page with one entry and a next-page element without a
    link. *)
Definition page_broken : soup := mkSoup [Web.attic] (Some None) None [].

Definition site_broken : nat -> string -> response :=
  fun _ url =>
    if bool_decide (url = Web.home) then Page page_broken
    else if bool_decide (url = Web.attic_url) then Page Web.attic_page
    else BadStatus 404.

(** The log of a crawl of that site: the record of the entry is
    extracted, and nothing is written. *)
Definition broken_run : trace :=
  [ Fetch Listing Web.home (Page page_broken);
    Fetch Detail Web.attic_url (Page Web.attic_page);
    Extract Web.attic (Some (Web.attic_details "Poetry")) ].

(** An event that names no scraper. *)
Definition no_scraper_event : Event := mkEvent (Some ∅).




(** A catalogue page with two entries that have all their pieces: the
    link of the first cannot be joined, the link of the second can. *)
Definition refused_entry : book_node := Web.entry_linked "//[bad/x.html".

Definition joined_entry : book_node := Web.entry_linked "../book_1/index.html".

Definition page_two_entries : soup :=
  mkSoup [refused_entry; joined_entry] None None [].

Definition site_two_entries : nat -> string -> response :=
  fun _ url =>
    if bool_decide (url = "http://example.com/catalogue/") then Page page_two_entries
    else BadStatus 404.

Definition book_1_details : BookDetails :=
  mkBook "Book" "10.00" 1 "In stock"
         "http://example.com/catalogue/book_1/index.html" "Unknown".

(** The log of a crawl of that site: no record and no request for the
    first entry, three requests and a record for the second, and the
    file with that one record. *)
Definition two_entries_run : trace :=
  [ Fetch Listing "http://example.com/catalogue/" (Page page_two_entries);
    Extract refused_entry None;
    Fetch Detail "http://example.com/catalogue/book_1/index.html" (BadStatus 404);
    Fetch Detail "http://example.com/catalogue/book_1/index.html" (BadStatus 404);
    Fetch Detail "http://example.com/catalogue/book_1/index.html" (BadStatus 404);
    Extract joined_entry (Some book_1_details);
    WriteCsv "raw_data/books_data.csv" [book_1_details] true ].

(** A detail page that answers on the third request. *)
Definition flaky : nat -> string -> response :=
  fun i _ =>
    match i with
    | 0 => TransportError
    | 1 => Page (mkSoup [] None None [])
    | _ => Page Web.attic_page
    end.

End CrawlMore.

(** * Properties *)

(** ** String primitives on sample inputs *)

Example startswith_http : PyStr.startswith "http://a/b" "http" = true.
Proof. reflexivity. Qed.

Example endswith_catalogue :
  PyStr.endswith "http://example.com/catalogue/" "/catalogue/" = true.
Proof. reflexivity. Qed.

Example drop_first_char_pound :
  PyStr.drop_first_char (PyStr.pound +:+ "51.77") = "51.77".
Proof. reflexivity. Qed.

Example replace_pound :
  PyStr.replace (PyStr.pound +:+ "10" +:+ PyStr.pound +:+ ".5") PyStr.pound "" = "10.5".
Proof. reflexivity. Qed.

Example strip_spaces : PyStr.strip "  In stock  " = "In stock".
Proof. reflexivity. Qed.

Example contains_in_stock : PyStr.contains "in stock" (PyStr.lower "In Stock (22)") = true.
Proof. reflexivity. Qed.


Example strip_no_break_space :
  PyStr.strip (String "194" (String "160" "Poetry") +:+ String "226" (String "128" (String "137" " ")))
  = "Poetry".
Proof. reflexivity. Qed.

Example strip_keeps_inner_space : PyStr.strip " a  b " = "a  b".
Proof. reflexivity. Qed.

Example lower_kelvin_sign :
  PyStr.lower ("IN STOC" +:+ String "226" (String "132" (String "170" ""))) = "in stock".
Proof. reflexivity. Qed.

(** ** urljoin on the reference cases of RFC 3986, section 5.4 *)

Example urljoin_rfc_normal :
  map (Web.urljoin "http://a/b/c/d;p?q")
      ["g"; "./g"; "g/"; "/g"; "//g"; "?y"; "g?y"; "#s"; "g#s"; ";x"; "g;x";
       ""; "."; "./"; ".."; "../"; "../g"; "../.."; "../../"; "../../g"]
  = map Ret
    ["http://a/b/c/g"; "http://a/b/c/g"; "http://a/b/c/g/"; "http://a/g";
     "http://g"; "http://a/b/c/d;p?y"; "http://a/b/c/g?y"; "http://a/b/c/d;p?q#s";
     "http://a/b/c/g#s"; "http://a/b/c/;x"; "http://a/b/c/g;x";
     "http://a/b/c/d;p?q"; "http://a/b/c/"; "http://a/b/c/"; "http://a/b/";
     "http://a/b/"; "http://a/b/g"; "http://a/"; "http://a/"; "http://a/g"].
Proof. vm_compute. reflexivity. Qed.

Example urljoin_rfc_abnormal :
  map (Web.urljoin "http://a/b/c/d;p?q")
      ["../../../g"; "/./g"; "g."; "..g"; "./../g"; "g/./h"; "g/../h"; "g:h"]
  = map Ret
    ["http://a/g"; "http://a/g"; "http://a/b/c/g."; "http://a/b/c/..g";
     "http://a/b/g"; "http://a/b/c/g/h"; "http://a/b/c/h"; "g:h"].
Proof. vm_compute. reflexivity. Qed.

Example urljoin_next_page :
  Web.urljoin "http://books.toscrape.com/catalogue/page-2.html" "page-3.html"
  = Ret "http://books.toscrape.com/catalogue/page-3.html".
Proof. vm_compute. reflexivity. Qed.

(** A leading space, and a tab or a line feed anywhere, are dropped
    from the link; a network location with one bracket is refused,
    whatever the two checks of bracketed and non-ASCII hosts say. *)
Example urljoin_sanitises :
  map (Web.urljoin "http://example.com/catalogue/")
      [" b/i.html"; String "b" (String "/" (String "009" "i.html"));
       String "b" (String "/" (String "i" (String "010" "")))]
  = map Ret
    ["http://example.com/catalogue/b/i.html"; "http://example.com/catalogue/b/i.html";
     "http://example.com/catalogue/b/i"].
Proof. vm_compute. reflexivity. Qed.

Example urljoin_refuses_one_bracket
    (bracketed nfkc : string -> result unit) :
  UrlLib.urljoin bracketed nfkc "http://example.com/catalogue/" "//[bad/x.html"
  = Raise ValueError.
Proof. vm_compute. reflexivity. Qed.

(** ** The models on the sample inputs *)

Example plain_decimal_samples :
  map Sample.plain_decimal ["10.00"; "15.50"; "invalid"; "-5.00"; ""; "1.2.3"]
  = [Some (Processing.Finite (inject_Z 10)); Some (Processing.Finite (31 # 2)); None;
     Some (Processing.Finite (inject_Z (-5))); None; None].
Proof. vm_compute. reflexivity. Qed.

Example numeric_price_column_is_refused :
  Processing._clean_data Sample.plain_decimal
    (Processing.mkFrame Sample.book_columns Processing.dt_numeric
       [Processing.mkRow (Processing.Str "Book1")
          (Processing.Num (Processing.Finite (inject_Z 10)))
          (Processing.Num (Processing.Finite (inject_Z 4)))
          (Processing.Str "In stock") (Processing.Str "u1") []])
  = Raise AttributeError.
Proof. reflexivity. Qed.

Example rating_map_lookup :
  (Scrapping.rating_map !! "Four", Scrapping.rating_map !! "Six") = (Some 4%Z, None).
Proof. vm_compute. reflexivity. Qed.

Example frame_without_a_price_column :
  Processing._clean_data Sample.plain_decimal
    (Processing.mkFrame ["Title"; "Rating"; "Availability"; "URL"] Processing.dt_object
       (Processing.rows Sample.scenario))
  = Raise KeyError.
Proof. reflexivity. Qed.

Example crawl_of_the_sample_site :
  Scrapping.scrape_books (Web.config_with_ceiling 5) Web.site Web.urljoin true "raw_data"
    Web.home []
  = Some (Some "raw_data/books_data.csv", Web.interrupted_run).
Proof. vm_compute. reflexivity. Qed.

Example crawl_of_the_broken_site :
  Scrapping.scrape_books (Web.config_with_ceiling 5) CrawlMore.site_broken Web.urljoin true
    "raw_data" Web.home []
  = Some (None, CrawlMore.broken_run).
Proof. vm_compute. reflexivity. Qed.

Example crawl_stops_at_the_ceiling :
  CrawlSpec.listing_responses
    (default [] (snd <$> Scrapping.scrape_books (Web.config_with_ceiling 1) Web.site
                           Web.urljoin true "raw_data" Web.home []))
  = [Scrapping.Page Web.page_1].
Proof. vm_compute. reflexivity. Qed.

(** ** The cleaning pipeline *)

Module ProcessingProps.
Import Processing CleanSpec.

Lemma rating_in_range_iff (r : Row) :
  rating_in_range r = true <-> rating_in_1_5 (Rating r).
Proof.
  unfold rating_in_range, rating_in_1_5, ge_one, le_five.
  destruct (Rating r) as [|s|[q| |]]; simpl; split.
  all: try (intros H; discriminate H).
  all: try (intros (q' & H & _); discriminate H).
  - intros H. apply andb_true_iff in H as [H1 H2].
    apply Qle_bool_iff in H1, H2. exists q. auto.
  - intros (q' & H & H1 & H2). injection H as <-.
    apply andb_true_iff. split; apply Qle_bool_iff; assumption.
Qed.

Lemma rating_after_price (f g : cell -> cell) (r : Row) :
  rating_in_range (set_Rating f (set_Price g r)) = rating_in_range (set_Rating f r).
Proof. reflexivity. Qed.

Lemma filter_twice {A : Type} (p q : A -> bool) (l : list A) :
  List.filter q (List.filter p l) = List.filter (fun x => p x && q x) l.
Proof.
  induction l as [|x l IH]; simpl; [reflexivity|].
  destruct (p x); simpl; [destruct (q x)|]; rewrite IH; reflexivity.
Qed.

(** The rows of the output: the rows kept, each one cleaned. *)
Lemma clean_rows (str_to_float : string -> option number) (df out : DataFrame) :
  _clean_data str_to_float df = Ret out ->
  rows out = map (clean_row str_to_float) (List.filter (kept str_to_float) (rows df)).
Proof.
  unfold _clean_data, dropna.
  destruct (forallb _ _); [cbn [rows Price_dtype columns]|discriminate].
  destruct (str_accessor _ _) as [[]|e]; [|discriminate].
  intros H. injection H as <-. cbn [rows].
  rewrite !filter_map_swap, !map_map, filter_twice.
  reflexivity.
Qed.

Lemma filter_sublist {A : Type} (p : A -> bool) (l : list A) :
  List.filter p l `sublist_of` l.
Proof.
  induction l as [|x l IH]; simpl; [constructor|].
  destruct (p x); constructor; exact IH.
Qed.

Lemma clean_row_same_record (f : string -> option number) (r : Row) :
  same_record (clean_row f r) r.
Proof. repeat split. Qed.

Lemma to_numeric_number_or_nan (f : string -> option number) (c : cell) :
  number_or_nan (to_numeric f c).
Proof.
  destruct c as [|s|x]; simpl.
  - left; reflexivity.
  - destruct (f s) as [x|]; [right; exists x|left]; reflexivity.
  - right; exists x; reflexivity.
Qed.

Lemma availability_label_normalised (c : cell) :
  availability_normalised (availability_label c).
Proof.
  unfold availability_normalised, availability_label.
  destruct c as [|s|x]; [right; reflexivity| |right; reflexivity].
  destruct (PyStr.contains _ _); [left|right]; reflexivity.
Qed.

Lemma kept_iff (f : string -> option number) (r : Row) :
  kept f r = true <->
  complete r = true /\ rating_in_1_5 (to_numeric f (Rating r)).
Proof.
  unfold kept. rewrite andb_true_iff, rating_in_range_iff. reflexivity.
Qed.

(** C1, as stated, fails on the scenario: the Book3 record, whose Price
    did not parse, is in the cleaned output next to Book1. *)
Lemma scenario_retains_unparsed_price :
  exists out,
    _clean_data Sample.plain_decimal Sample.scenario = Ret out
    /\ rows out <> [Sample.book1_cleaned]
    /\ In Sample.book3_cleaned (rows out)
    /\ Price Sample.book3_cleaned = NaN.
Proof.
  eexists. split; [vm_compute; reflexivity|].
  split; [discriminate|]. split; [right; left|]; reflexivity.
Qed.

(** C1, amended: the cleaned output holds exactly the rows with none of
    Title, Price, Rating, Availability and URL missing whose Rating
    converts to a number in [1,5], each one cleaned; a Price that does
    not parse becomes the not-a-number placeholder and the row stays.
    On the four-row scenario the output is Book1 followed by Book3 with a
    not-a-number Price. *)
Theorem clean_keeps_rated_rows :
  (forall (str_to_float : string -> option number) (df out : DataFrame),
      _clean_data str_to_float df = Ret out ->
      forall r' : Row,
        In r' (rows out) <->
        exists r, In r (rows df) /\ complete r = true
                  /\ rating_in_1_5 (to_numeric str_to_float (Rating r))
                  /\ r' = clean_row str_to_float r)
  /\ _clean_data Sample.plain_decimal Sample.scenario
     = Ret (mkFrame Sample.book_columns dt_numeric [Sample.book1_cleaned; Sample.book3_cleaned]).
Proof.
  split; [|vm_compute; reflexivity].
  intros f df out H r'. rewrite (clean_rows f df out H), in_map_iff.
  split.
  - intros (r & <- & Hin). apply filter_In in Hin as [Hin Hk].
    apply kept_iff in Hk as [Hc Hr]. exists r. auto.
  - intros (r & Hin & Hc & Hr & ->). exists r. split; [reflexivity|].
    apply filter_In. split; [exact Hin|]. apply kept_iff. auto.
Qed.

Lemma clean_keeps_rated_rows_witness :
  In Sample.book3_cleaned
     (rows (mkFrame Sample.book_columns dt_numeric [Sample.book1_cleaned; Sample.book3_cleaned]))
  <-> exists r, In r (rows Sample.scenario) /\ complete r = true
                /\ rating_in_1_5 (to_numeric Sample.plain_decimal (Rating r))
                /\ Sample.book3_cleaned = clean_row Sample.plain_decimal r.
Proof.
  apply (proj1 clean_keeps_rated_rows Sample.plain_decimal Sample.scenario).
  vm_compute. reflexivity.
Defined.

(** C2, as stated, fails: a row priced at minus five pounds with the
    rating three and a half is cleaned and kept, so a cleaned record can
    have a negative Price and a Rating that is not a whole number. *)
Lemma cleaned_price_can_be_negative :
  exists out,
    _clean_data Sample.plain_decimal Sample.discounted = Ret out
    /\ In Sample.book5_cleaned (rows out)
    /\ ~ non_negative (Price Sample.book5_cleaned)
    /\ ~ whole (Rating Sample.book5_cleaned)
    /\ ~ fully_valid Sample.book5_cleaned.
Proof.
  assert (Hneg : ~ non_negative (Price Sample.book5_cleaned)).
  { intros (q & H & Hq). injection H as <-. revert Hq.
    unfold Qle. simpl. lia. }
  assert (Hwhole : ~ whole (Rating Sample.book5_cleaned)).
  { intros (q & z & H & Hq). injection H as <-. revert Hq.
    unfold Qeq. simpl. lia. }
  eexists. split; [vm_compute; reflexivity|].
  split; [left; reflexivity|]. split; [exact Hneg|]. split; [exact Hwhole|].
  intros (_ & H & _). exact (Hneg H).
Qed.

(** C2, amended: in every record of the cleaned dataset, simultaneously,
    Rating is a number in [1,5] (whole or not), Price is a number of
    either sign or the not-a-number placeholder, and Availability is
    exactly "In Stock" or "Out of Stock". *)
Theorem cleaned_rows_constrained
    (str_to_float : string -> option number) (df out : DataFrame) :
  _clean_data str_to_float df = Ret out ->
  Forall (fun r => rating_in_1_5 (Rating r)
                   /\ number_or_nan (Price r)
                   /\ availability_normalised (Availability r))
         (rows out).
Proof.
  intros H. rewrite (clean_rows _ _ _ H).
  apply List.Forall_forall. intros r' Hin.
  apply in_map_iff in Hin as (r & <- & Hin).
  apply filter_In in Hin as [_ Hk]. apply kept_iff in Hk as [_ Hr].
  split; [exact Hr|]. split.
  - apply to_numeric_number_or_nan.
  - apply availability_label_normalised.
Qed.

Lemma cleaned_rows_constrained_witness :
  Forall (fun r => rating_in_1_5 (Rating r)
                   /\ number_or_nan (Price r)
                   /\ availability_normalised (Availability r))
         [Sample.book1_cleaned; Sample.book3_cleaned].
Proof.
  apply (cleaned_rows_constrained Sample.plain_decimal Sample.scenario
           (mkFrame Sample.book_columns dt_numeric [Sample.book1_cleaned; Sample.book3_cleaned])).
  vm_compute. reflexivity.
Defined.

(** C10: the cleaned rows are, in the same order, a selection of the
    input rows (none twice, none moved), and each cleaned row has the
    Title, the URL and the other columns of the input row it comes
    from; only Price, Rating and Availability are rewritten. *)
Theorem clean_preserves_order_and_identity
    (str_to_float : string -> option number) (df out : DataFrame) :
  _clean_data str_to_float df = Ret out ->
  exists survivors : list Row,
    survivors `sublist_of` rows df
    /\ Forall2 same_record (rows out) survivors.
Proof.
  intros H. exists (List.filter (kept str_to_float) (rows df)).
  split; [apply filter_sublist|].
  rewrite (clean_rows _ _ _ H).
  induction (List.filter _ _) as [|r rs IH]; simpl; constructor.
  - apply clean_row_same_record.
  - exact IH.
Qed.

Lemma clean_preserves_order_and_identity_witness :
  exists survivors : list Row,
    survivors `sublist_of` rows Sample.scenario
    /\ Forall2 same_record [Sample.book1_cleaned; Sample.book3_cleaned] survivors.
Proof.
  apply (clean_preserves_order_and_identity Sample.plain_decimal Sample.scenario
           (mkFrame Sample.book_columns dt_numeric [Sample.book1_cleaned; Sample.book3_cleaned])).
  vm_compute. reflexivity.
Defined.

(** C3: the handler of the processing stage answers 200 with the
    success message and no path when the named source file cannot be
    read or cleaning it raises, where the claim asks for a failure
    status. *)
Theorem processing_failure_answers_200
    (str_to_float : string -> option number) (env : Env) (event : Event)
    (files : list raw_data_file) (file_config : raw_data_file) :
  run_raw_data_json env = Ret files ->
  List.find (fun f => bool_decide
               (Some (rd_id f)
                = default ∅ (processing_input event) !! "raw_data_id")) files
    = Some file_config ->
  makedirs env (PROCESSED_DATA_DIR env) = Ret tt ->
  (forall df, read_csv env (rd_path file_config) = Ret df ->
              exists e, _clean_data str_to_float df = Raise e) ->
  lambdaHandler str_to_float env event
  = mkResponse 200 (PathBody "Processing completed successfully" None).
Proof.
  intros Hjson Hfind Hmk Hbad.
  unfold lambdaHandler, handler_body. rewrite Hjson, Hfind, Hmk.
  unfold process_data.
  destruct (read_csv env (rd_path file_config)) as [df|e]; [|reflexivity].
  destruct (Hbad df eq_refl) as [e ->]. reflexivity.
Qed.

Lemma processing_failure_answers_200_witness :
  lambdaHandler Sample.plain_decimal Sample.missing_file_env Sample.event_102
  = mkResponse 200 (PathBody "Processing completed successfully" None).
Proof.
  apply (processing_failure_answers_200 Sample.plain_decimal
           Sample.missing_file_env Sample.event_102
           [mkRawFile "102" "raw_data/books_data.csv"]
           (mkRawFile "102" "raw_data/books_data.csv")).
  - reflexivity.
  - vm_compute. reflexivity.
  - reflexivity.
  - intros df H. discriminate H.
Defined.

End ProcessingProps.

(** ** The crawl *)

Module ScrappingProps.
Import Scrapping CrawlSpec.

(** *** Reading a log made of two parts *)

Lemma listing_responses_app (a b : trace) :
  listing_responses (a ++ b) = listing_responses a ++ listing_responses b.
Proof.
  induction a as [|[[] u r|bk d|p bd ok] a IH]; simpl; rewrite ?IH; reflexivity.
Qed.

Lemma listing_pages_app (a b : trace) :
  listing_pages (a ++ b) = listing_pages a ++ listing_pages b.
Proof.
  induction a as [|[[] u [s| | |]|bk d|p bd ok] a IH]; simpl; rewrite ?IH; reflexivity.
Qed.

Lemma extract_calls_app (a b : trace) :
  extract_calls (a ++ b) = extract_calls a ++ extract_calls b.
Proof.
  induction a as [|[k u r|bk d|p bd ok] a IH]; simpl; rewrite ?IH; reflexivity.
Qed.

Lemma extracted_app (a b : trace) :
  extracted (a ++ b) = extracted a ++ extracted b.
Proof.
  induction a as [|[k u r|bk [d|]|p bd ok] a IH]; simpl; rewrite ?IH; reflexivity.
Qed.

(** A log of detail requests has no listing response, no page, no
    extraction. *)
Lemma detail_only (url : string) (evs : trace) :
  Forall (detail_fetch_of url) evs ->
  listing_responses evs = [] /\ listing_pages evs = []
  /\ extract_calls evs = [] /\ extracted evs = [].
Proof.
  induction 1 as [|e evs [r ->] _ IH]; simpl; [repeat split|exact IH].
Qed.

(** *** The retry loop *)

Section Run.
Variable cfg : ScrapingConfig.
Variable net : nat -> string -> response.
Variable urljoin : string -> string -> result string.

Lemma retry_loop_spec (fuel : nat) :
  forall (url : string) (retries : nat) (subcategory : string) (tr : trace),
    MAX_RETRIES cfg - retries <= fuel ->
    exists how sub evs,
      retry_loop cfg net fuel url retries subcategory tr = Some (how, sub, tr ++ evs)
      /\ Forall (detail_fetch_of url) evs
      /\ length evs <= MAX_RETRIES cfg - retries
      /\ (always_fails net url ->
          length evs = MAX_RETRIES cfg - retries /\ sub = subcategory).
Proof.
  induction fuel as [|fuel IH]; intros url retries sub tr Hfuel; simpl.
  - destruct (Nat.ltb_spec retries (MAX_RETRIES cfg)) as [Hlt|Hge]; [lia|].
    exists Exhausted, sub, []. rewrite app_nil_r.
    split; [reflexivity|].
    split; [constructor|split; [simpl; lia|intros _; split; [simpl; lia|reflexivity]]].
  - destruct (Nat.ltb_spec retries (MAX_RETRIES cfg)) as [Hlt|Hge].
    2:{ exists Exhausted, sub, []. rewrite app_nil_r.
        split; [reflexivity|].
    split; [constructor|split; [simpl; lia|intros _; split; [simpl; lia|reflexivity]]]. }
    set (n := length (List.filter is_fetch tr)).
    assert (Hone : Forall (detail_fetch_of url) [Fetch Detail url (net n url)]).
    { constructor; [exists (net n url); reflexivity|constructor]. }
    assert (Hmore : forall retries' sub',
               retries' = retries + 1 ->
               (always_fails net url -> sub' = sub) ->
               retries' < MAX_RETRIES cfg ->
               exists how sub'' evs,
                 retry_loop cfg net fuel url retries' sub'
                   (tr ++ [Fetch Detail url (net n url)])
                 = Some (how, sub'', tr ++ evs)
                 /\ Forall (detail_fetch_of url) evs
                 /\ length evs <= MAX_RETRIES cfg - retries
                 /\ (always_fails net url ->
                     length evs = MAX_RETRIES cfg - retries /\ sub'' = sub)).
    { intros retries' sub' -> Hsub Hlt'.
      destruct (IH url (retries + 1) sub' (tr ++ [Fetch Detail url (net n url)]))
        as (how & sub'' & evs & Heq & Hall & Hlen & Hfail); [lia|].
      exists how, sub'', (Fetch Detail url (net n url) :: evs).
      rewrite Heq, <- app_assoc. simpl.
      repeat split.
      - constructor; [exists (net n url); reflexivity|exact Hall].
      - lia.
      - destruct (Hfail H) as [Hl _]. lia.
      - destruct (Hfail H) as [_ ->]. auto. }
    destruct (net n url) as [s| |code|] eqn:Hnet.
    + destruct (bool_decide (via_nav_list s (via_breadcrumb s sub) = "Unknown")) eqn:Hu; simpl.
      * destruct (Nat.ltb_spec (retries + 1) (MAX_RETRIES cfg)) as [Hlt'|Hge'].
        -- apply Hmore; [reflexivity| |exact Hlt'].
           intros Hfail. specialize (Hfail n). rewrite Hnet in Hfail. discriminate.
        -- destruct fuel as [|fuel']; simpl;
             (destruct (Nat.ltb_spec (retries + 1) (MAX_RETRIES cfg)); [lia|]);
             eexists Exhausted, _, [_]; (split; [reflexivity|]);
             (split; [exact Hone|split; [simpl; lia|]]);
             intros Hfail; specialize (Hfail n); rewrite Hnet in Hfail; discriminate.
      * eexists Found, _, [_]. split; [reflexivity|].
        split; [exact Hone|split; [simpl; lia|]].
        intros Hfail; specialize (Hfail n); rewrite Hnet in Hfail; discriminate.
    + destruct (Nat.leb_spec (MAX_RETRIES cfg) (retries + 1)) as [Hle|Hgt].
      * eexists (Raised RequestException), sub, [_]. split; [reflexivity|].
        split; [exact Hone|split; [simpl; lia|intros _; split; [simpl; lia|reflexivity]]].
      * apply Hmore; [reflexivity|auto|exact Hgt].
    + destruct (Nat.leb_spec (MAX_RETRIES cfg) (retries + 1)) as [Hle|Hgt].
      * eexists (Raised RequestException), sub, [_]. split; [reflexivity|].
        split; [exact Hone|split; [simpl; lia|intros _; split; [simpl; lia|reflexivity]]].
      * apply Hmore; [reflexivity|auto|exact Hgt].
    + eexists (Raised OtherError), sub, [_]. split; [reflexivity|].
      split; [exact Hone|split; [simpl; lia|]].
      intros Hfail; specialize (Hfail n); rewrite Hnet in Hfail; discriminate.
Qed.

(** *** One entry, then all the entries of a page *)

Lemma extract_details_spec (base : string) (book : book_node) (tr : trace) :
  exists d evs url,
    _extract_book_details cfg net urljoin base book tr
    = Some (d, tr ++ evs ++ [Extract book d])
    /\ Forall (detail_fetch_of url) evs
    /\ length evs <= MAX_RETRIES cfg.
Proof.
  unfold _extract_book_details, resolve_subcategory.
  destruct (a_title book) as [title|];
    [|exists None, [], ""; repeat split; [constructor|simpl; lia]].
  destruct (price_color_text book) as [price|];
    [|exists None, [], ""; repeat split; [constructor|simpl; lia]].
  destruct (star_rating_class book) as [rating|];
    [|exists None, [], ""; repeat split; [constructor|simpl; lia]].
  destruct (instock_text book) as [avail|];
    [|exists None, [], ""; repeat split; [constructor|simpl; lia]].
  destruct (a_href book) as [href|];
    [|exists None, [], ""; repeat split; [constructor|simpl; lia]].
  destruct (product_url_of urljoin base href) as [product_url|e];
    [|exists None, [], ""; repeat split; [constructor|simpl; lia]].
  destruct (retry_loop_spec (MAX_RETRIES cfg) product_url 0 "Unknown" tr)
    as (how & sub & evs & Heq & Hall & Hlen & _); [lia|].
  rewrite Heq. eexists (Some _), evs, _.
  rewrite <- app_assoc. split; [reflexivity|]. split; [exact Hall|lia].
Qed.

Lemma extract_books_spec (base : string) (books : list book_node) :
  forall (bd : list BookDetails) (tr : trace),
  exists evs,
    extract_books cfg net urljoin base books bd tr
    = Some (bd ++ extracted evs, tr ++ evs)
    /\ extract_calls evs = books
    /\ listing_responses evs = []
    /\ listing_pages evs = [].
Proof.
  induction books as [|book books IH]; intros bd tr; simpl.
  - exists []. rewrite !app_nil_r. repeat split.
  - destruct (extract_details_spec base book tr)
      as (d & evs & url & Heq & Hall & _).
    destruct (detail_only url evs Hall) as (Hlr & Hlp & Hcalls & Hex).
    rewrite Heq.
    destruct d as [d|].
    + destruct (IH (bd ++ [d]) (tr ++ evs ++ [Extract book (Some d)]))
        as (evs' & Heq' & Hcalls' & Hlr' & Hlp').
      exists ((evs ++ [Extract book (Some d)]) ++ evs').
      rewrite Heq'.
      rewrite !extracted_app, !extract_calls_app, !listing_responses_app,
        !listing_pages_app, Hlr, Hlp, Hcalls, Hex, Hcalls', Hlr', Hlp'.
      simpl. rewrite <- !app_assoc. repeat split.
    + destruct (IH bd (tr ++ evs ++ [Extract book None]))
        as (evs' & Heq' & Hcalls' & Hlr' & Hlp').
      exists ((evs ++ [Extract book None]) ++ evs').
      rewrite Heq'.
      rewrite !extracted_app, !extract_calls_app, !listing_responses_app,
        !listing_pages_app, Hlr, Hlp, Hcalls, Hex, Hcalls', Hlr', Hlp'.
      simpl. rewrite <- !app_assoc. repeat split.
Qed.

(** *** The crawl loop, case by case *)

Variable max : nat.

Lemma inv_stop (pc : nat) (page_url : option string) (bd : list BookDetails) :
  (forall url, page_url = Some url -> PyStr.truthy url = true -> max <= pc) ->
  crawl_invariant urljoin net max pc page_url bd (Ret bd) [].
Proof.
  intros Hstop. unfold crawl_invariant. simpl.
  split; [intros url H1 H2 H3; specialize (Hstop url H1 H2); lia|].
  split; [lia|]. split; [reflexivity|].
  split; [intros bd' H; injection H as <-; rewrite app_nil_r; reflexivity|].
  split; [intros H; inversion H|].
  split; [intros [|x rs1] resp rs2 H; discriminate H|].
  intros _ bd' [|x rs] s _ H; discriminate H.
Qed.

Lemma inv_single (pc : nat) (bd : list BookDetails)
    (r : result (list BookDetails)) (url : string) (resp : response) :
  pc < max -> (forall s, resp <> Page s) ->
  (failed resp -> r = Ret bd) -> (forall bd', r = Ret bd' -> bd' = bd) ->
  crawl_invariant urljoin net max pc (Some url) bd r [Fetch Listing url resp].
Proof.
  intros Hpc Hnopage Hfail Hret. unfold crawl_invariant. simpl.
  split; [intros u [= <-] _ _; eexists _, _; reflexivity|].
  split; [lia|].
  split; [destruct resp as [s| | |]; [destruct (Hnopage s eq_refl)|..]; reflexivity|].
  split; [intros bd' H; rewrite app_nil_r; apply Hret, H|].
  split.
  { intros H. exists [], url, resp. simpl. rewrite app_nil_r.
    inversion H as [? ? Hf|? ? Hf]; [|inversion Hf].
    repeat split; [exact Hf|constructor|apply Hfail, Hf]. }
  split.
  { intros [|x [|y rs1]] resp' rs2 H Hne; try discriminate H.
    injection H as _ <-. destruct (Hne eq_refl). }
  intros _ bd' [|x [|y rs]] s _ H; try discriminate H.
  injection H as ->. destruct (Hnopage s eq_refl).
Qed.

Lemma inv_page_end (pc : nat) (bd : list BookDetails)
    (r : result (list BookDetails)) (url : string) (s : soup) (evx : trace) :
  pc < max ->
  extract_calls evx = product_pods s ->
  listing_responses evx = [] -> listing_pages evx = [] ->
  (forall bd', r = Ret bd' -> bd' = bd ++ extracted evx /\ li_next s = None) ->
  crawl_invariant urljoin net max pc (Some url) bd r (Fetch Listing url (Page s) :: evx).
Proof.
  intros Hpc Hcalls Hlr Hlp Hret. unfold crawl_invariant. simpl.
  rewrite Hlr, Hlp, Hcalls. simpl. rewrite app_nil_r.
  split; [intros u [= <-] _ _; eexists _, _; reflexivity|].
  split; [lia|]. split; [reflexivity|].
  split; [intros bd' H; apply Hret, H|].
  split.
  { intros H. inversion H as [? ? Hf|? ? Hf]; [discriminate Hf|inversion Hf]. }
  split.
  { intros [|x [|y rs1]] resp' rs2 H Hne; try discriminate H.
    injection H as _ <-. destruct (Hne eq_refl). }
  intros _ bd' [|x [|y rs]] s' Hr H; try discriminate H.
  injection H as <-. left. apply (Hret bd' Hr).
Qed.

Lemma inv_page_next (pc : nat) (bd : list BookDetails)
    (r : result (list BookDetails)) (url : string) (n : nat) (s : soup)
    (h next : string) (evx evs' : trace) :
  pc < max -> net n url = Page s -> li_next s = Some (Some h) ->
  urljoin url h = Ret next ->
  extract_calls evx = product_pods s ->
  listing_responses evx = [] -> listing_pages evx = [] ->
  crawl_invariant urljoin net max (pc + 1) (Some next)
    (bd ++ extracted evx) r evs' ->
  crawl_invariant urljoin net max pc (Some url) bd r
    (Fetch Listing url (Page s) :: evx ++ evs').
Proof.
  intros Hpc Hnet Hnext Hurl Hcalls Hlr Hlp (I0 & I1 & I2 & I3 & I4 & I5 & I6).
  unfold crawl_invariant. simpl.
  rewrite listing_responses_app, listing_pages_app, extract_calls_app,
    extracted_app, Hlr, Hlp, Hcalls. simpl.
  split; [intros u [= <-] _ _; eexists _, _; reflexivity|].
  split; [lia|].
  split; [rewrite I2; reflexivity|].
  split; [intros bd' H; rewrite app_assoc; apply I3, H|].
  split.
  { intros H. inversion H as [? ? Hf|? ? Hf]; [discriminate Hf|].
    destruct (I4 Hf) as (pre & u & resp & -> & Hresp & Hpre & ->).
    exists (Fetch Listing url (Page s) :: evx ++ pre), u, resp.
    simpl. rewrite listing_responses_app, extracted_app, Hlr, <- !app_assoc. simpl.
    split; [reflexivity|]. split; [exact Hresp|]. split; [|reflexivity].
    constructor; [intros Hf'; discriminate Hf'|exact Hpre]. }
  split.
  { intros [|x rs1] resp rs2 H Hne.
    - injection H as <- _. exists s, h. split; [reflexivity|exact Hnext].
    - injection H as _ H. apply (I5 rs1 resp rs2 H Hne). }
  intros Hjoin bd' rs s' Hr H.
  destruct (listing_responses evs') as [|x l] eqn:Hl.
  - (* the next turn requested nothing: the ceiling is reached *)
    right. destruct (Nat.lt_ge_cases (pc + 1) max) as [Hlt|Hge]; [|simpl; lia].
    destruct (I0 next eq_refl (Hjoin n url s h next Hnet Hnext Hurl) Hlt)
      as (resp & evs'' & ->).
    discriminate Hl.
  - destruct rs as [|y rs]; [destruct l; discriminate H|].
    injection H as _ H.
    destruct (I6 Hjoin bd' rs s' Hr H) as [Hnone|Hlen]; [left; exact Hnone|].
    right. simpl in *. lia.
Qed.

Lemma crawl_loop_no_url (fuel : nat) (base : string) (pc : nat)
    (bd : list BookDetails) (tr : trace) :
  crawl_loop cfg net urljoin fuel base None pc bd tr = Some (Ret bd, tr).
Proof. destruct fuel; reflexivity. Qed.

(** With a ceiling, the loop ends within the fuel the ceiling gives
    it, and its run satisfies the invariant. *)
Lemma crawl_loop_spec (fuel : nat) :
  MAX_PAGES cfg = Some max ->
  forall (base : string) (page_url : option string) (pc : nat)
         (bd : list BookDetails) (tr : trace),
    max - pc <= fuel ->
    exists r evs,
      crawl_loop cfg net urljoin fuel base page_url pc bd tr = Some (r, tr ++ evs)
      /\ crawl_invariant urljoin net max pc page_url bd r evs.
Proof.
  intros Hmax.
  assert (Hstop : forall fuel base page_url pc bd tr,
             (forall url, page_url = Some url -> PyStr.truthy url = true -> max <= pc) ->
             exists r evs,
               crawl_loop cfg net urljoin fuel base page_url pc bd tr
               = Some (r, tr ++ evs)
               /\ crawl_invariant urljoin net max pc page_url bd r evs).
  { intros f base page_url pc bd tr H. exists (Ret bd), [].
    rewrite app_nil_r. split; [|apply inv_stop, H].
    destruct page_url as [url|]; [|apply crawl_loop_no_url].
    specialize (H url eq_refl).
    destruct f; simpl; destruct (PyStr.truthy url); simpl; try reflexivity;
      rewrite Hmax; (destruct (Nat.ltb_spec pc max); [specialize (H eq_refl); lia|]);
      reflexivity. }
  induction fuel as [|fuel IH]; intros base page_url pc bd tr Hfuel.
  { apply Hstop. intros; lia. }
  destruct page_url as [url|]; [|apply Hstop; intros; discriminate].
  destruct (PyStr.truthy url) eqn:Htruthy;
    [|apply Hstop; intros u [= <-] Hu; rewrite Htruthy in Hu; discriminate].
  destruct (Nat.lt_ge_cases pc max) as [Hlt|Hge];
    [|apply Hstop; intros; exact Hge].
  simpl. rewrite Htruthy, Hmax. simpl.
  destruct (Nat.ltb_spec pc max) as [_|Hge]; [|lia].
  set (n := length (List.filter is_fetch tr)).
  destruct (net n url) as [s| |code|] eqn:Hnet.
  - destruct (extract_books_spec base (product_pods s) bd
                (tr ++ [Fetch Listing url (Page s)]))
      as (evx & Hx & Hcalls & Hlr & Hlp).
    rewrite Hx.
    destruct (li_next s) as [[h|]|] eqn:Hnext.
    + destruct (urljoin url h) as [next|e] eqn:Hurl.
      * destruct (IH base (Some next) (pc + 1) (bd ++ extracted evx)
                    ((tr ++ [Fetch Listing url (Page s)]) ++ evx))
          as (r & evs' & Heq & Hinv); [lia|].
        exists r, (Fetch Listing url (Page s) :: evx ++ evs').
        split; [rewrite Heq, <- !app_assoc; reflexivity|].
        apply (inv_page_next pc bd r url n s h next evx evs'); assumption.
      * exists (Raise e), (Fetch Listing url (Page s) :: evx).
        split; [rewrite <- !app_assoc; reflexivity|].
        apply inv_page_end; try assumption. intros bd' H; discriminate H.
    + exists (Raise TypeError), (Fetch Listing url (Page s) :: evx).
      split; [rewrite <- !app_assoc; reflexivity|].
      apply inv_page_end; try assumption. intros bd' H; discriminate H.
    + rewrite crawl_loop_no_url.
      exists (Ret (bd ++ extracted evx)), (Fetch Listing url (Page s) :: evx).
      split; [rewrite <- !app_assoc; reflexivity|].
      apply inv_page_end; try assumption.
      intros bd' H; injection H as <-. split; [reflexivity|exact Hnext].
  - exists (Ret bd), [Fetch Listing url TransportError].
    split; [reflexivity|].
    apply inv_single; [exact Hlt|intros s; discriminate|reflexivity|].
    intros bd' H; injection H as <-; reflexivity.
  - exists (Ret bd), [Fetch Listing url (BadStatus code)].
    split; [reflexivity|].
    apply inv_single; [exact Hlt|intros s; discriminate|reflexivity|].
    intros bd' H; injection H as <-; reflexivity.
  - exists (Raise OtherError), [Fetch Listing url Crash].
    split; [reflexivity|].
    apply inv_single; [exact Hlt|intros s; discriminate| |].
    + intros H; discriminate H.
    + intros bd' H; discriminate H.
Qed.

(** Without a ceiling, the loop condition raises as soon as it is
    evaluated on an address, and nothing is requested. *)
Lemma crawl_loop_no_ceiling (fuel : nat) (base url : string) (pc : nat)
    (bd : list BookDetails) (tr : trace) :
  MAX_PAGES cfg = None -> PyStr.truthy url = true ->
  crawl_loop cfg net urljoin fuel base (Some url) pc bd tr
  = Some (Raise AttributeError, tr).
Proof.
  intros Hnone Htruthy. destruct fuel; simpl; rewrite Htruthy, Hnone; reflexivity.
Qed.

End Run.

Lemma in_listing_responses (u : string) (resp : response) (evs : trace) :
  In (Fetch Listing u resp) evs -> In resp (listing_responses evs).
Proof.
  induction evs as [|[[] u' r|bk d|p bd ok] evs IH]; simpl; intros H;
    try (destruct H as [H|H]; [discriminate H|auto]); try contradiction.
  destruct H as [H|H]; [injection H as _ ->; left; reflexivity|right; auto].
Qed.

(** *** The detail resolver *)

(** C5: for every item the retry loop ends (the fuel [MAX_RETRIES] is
    enough), all it does on the network is request the detail page, at
    most [MAX_RETRIES] times; when every request fails with a
    [RequestException] it makes exactly [MAX_RETRIES] requests, one per
    failure, and the subcategory stays "Unknown". The shipped bound
    is 3. *)
Theorem detail_fetches_bounded (cfg : ScrapingConfig) (net : nat -> string -> response) :
  (forall (url : string) (tr : trace),
      exists subcategory evs,
        resolve_subcategory cfg net url tr = Some (subcategory, tr ++ evs)
        /\ Forall (detail_fetch_of url) evs
        /\ length evs <= MAX_RETRIES cfg
        /\ (always_fails net url ->
            length evs = MAX_RETRIES cfg /\ subcategory = "Unknown"))
  /\ (forall (urljoin : string -> string -> result string)
             (base : string) (book : book_node) (tr : trace),
        exists d evs url,
          _extract_book_details cfg net urljoin base book tr
          = Some (d, tr ++ evs ++ [Extract book d])
          /\ Forall (detail_fetch_of url) evs
          /\ length evs <= MAX_RETRIES cfg)
  /\ MAX_RETRIES config_py = 3.
Proof.
  split; [|split; [intros urljoin; apply extract_details_spec|reflexivity]].
  intros url tr. unfold resolve_subcategory.
  destruct (retry_loop_spec cfg net (MAX_RETRIES cfg) url 0 "Unknown" tr)
    as (how & sub & evs & Heq & Hall & Hlen & Hfail); [lia|].
  rewrite Heq. exists sub, evs.
  split; [reflexivity|]. split; [exact Hall|]. split; [lia|].
  intros H. destruct (Hfail H) as [Hl Hs]. split; [lia|exact Hs].
Qed.

Lemma detail_fetches_bounded_witness :
  exists subcategory evs,
    resolve_subcategory config_py Web.net_down Web.attic_url [] = Some (subcategory, evs)
    /\ length evs = 3 /\ subcategory = "Unknown".
Proof.
  destruct (proj1 (detail_fetches_bounded config_py Web.net_down) Web.attic_url [])
    as (sub & evs & Heq & _ & _ & Hfail).
  exists sub, evs. split; [exact Heq|].
  apply Hfail. intros i. reflexivity.
Defined.

(** *** The extractor *)

(** C4, as stated, fails: the price text of the entry is the pound sign
    followed by 51.77, and the Price of the record is 51.77 without the
    sign. *)
Lemma extracted_price_loses_currency_symbol :
  exists d tr,
    _extract_book_details config_py Web.net_down Web.urljoin Web.home Web.attic []
    = Some (Some d, tr)
    /\ price_color_text Web.attic = Some (PyStr.pound +:+ "51.77")
    /\ Price d = "51.77"
    /\ Price d <> PyStr.pound +:+ "51.77".
Proof.
  eexists _, _. split; [vm_compute; reflexivity|].
  split; [reflexivity|]. split; [reflexivity|]. discriminate.
Qed.

(** What a returned record says of the entry it comes from. *)
Lemma extract_details_fields
    (cfg : ScrapingConfig) (net : nat -> string -> response)
    (urljoin : string -> string -> result string)
    (base : string) (book : book_node) (tr tr' : trace) (d : BookDetails) :
  _extract_book_details cfg net urljoin base book tr = Some (Some d, tr') ->
  exists text href,
    price_color_text book = Some text /\ Price d = PyStr.drop_first_char text
    /\ a_href book = Some href /\ product_url_of urljoin base href = Ret (URL d).
Proof.
  unfold _extract_book_details.
  destruct (a_title book); [|intros H; discriminate H].
  destruct (price_color_text book) as [text|]; [|intros H; discriminate H].
  destruct (star_rating_class book); [|intros H; discriminate H].
  destruct (instock_text book); [|intros H; discriminate H].
  destruct (a_href book) as [href|]; [|intros H; discriminate H].
  destruct (product_url_of urljoin base href) as [product_url|e] eqn:Hurl;
    [|intros H; discriminate H].
  destruct (resolve_subcategory _ _ _ _) as [[sub tr1]|]; [|intros H; discriminate H].
  intros H. injection H as <- _. exists text, href. repeat split. exact Hurl.
Qed.

(** C4, amended: the extractor returns for every entry, and when it
    returns a record, the Price of the record is the price text of the
    entry without its first character. *)
Theorem extracted_price_drops_first_character
    (cfg : ScrapingConfig) (net : nat -> string -> response)
    (urljoin : string -> string -> result string)
    (base : string) (book : book_node) (tr : trace) :
  exists d tr',
    _extract_book_details cfg net urljoin base book tr = Some (d, tr')
    /\ forall record : BookDetails,
         d = Some record ->
         exists text,
           price_color_text book = Some text
           /\ Price record = PyStr.drop_first_char text.
Proof.
  destruct (extract_details_spec cfg net urljoin base book tr)
    as (d & evs & url & Heq & _).
  exists d, (tr ++ evs ++ [Extract book d]). split; [exact Heq|].
  intros record ->.
  destruct (extract_details_fields _ _ _ _ _ _ _ _ Heq) as (text & href & H1 & H2 & _).
  exists text. split; assumption.
Qed.

Lemma extracted_price_drops_first_character_witness :
  exists text,
    price_color_text Web.attic = Some text
    /\ Price (Web.attic_details "Unknown") = PyStr.drop_first_char text.
Proof.
  destruct (extracted_price_drops_first_character config_py Web.net_down Web.urljoin
              Web.home Web.attic []) as (d & tr' & Heq & H).
  apply H.
  assert (Hrun : _extract_book_details config_py Web.net_down Web.urljoin Web.home
                   Web.attic []
                 = Some (Some (Web.attic_details "Unknown"),
                         [Fetch Detail Web.attic_url TransportError;
                          Fetch Detail Web.attic_url TransportError;
                          Fetch Detail Web.attic_url TransportError;
                          Extract Web.attic (Some (Web.attic_details "Unknown"))]))
    by (vm_compute; reflexivity).
  rewrite Hrun in Heq. injection Heq as <- _. reflexivity.
Defined.

(** C8, as stated, fails, because the extractor takes a link for
    absolute when its text starts with "http". The link "httpfoo/x.html"
    is a relative reference, which [urljoin] resolves against
    "http://example.com/catalogue/" to
    "http://example.com/catalogue/httpfoo/x.html"; the URL of the record
    is the link as it is. The link "HTTPS://example.com/b.html" is
    absolute, [urljoin] returns it as it is; the URL of the record on the
    base "http://example.com/" is another address, made by joining
    "catalogue/" and the link to the base. *)
Lemma href_prefix_test_is_textual :
  (exists d tr,
      _extract_book_details config_py Web.net_down Web.urljoin
        "http://example.com/catalogue/" (Web.entry_linked "httpfoo/x.html") []
      = Some (Some d, tr)
      /\ Web.urljoin "http://example.com/catalogue/" "httpfoo/x.html"
         = Ret "http://example.com/catalogue/httpfoo/x.html"
      /\ URL d = "httpfoo/x.html"
      /\ URL d <> "http://example.com/catalogue/httpfoo/x.html")
  /\ (exists d tr,
        _extract_book_details config_py Web.net_down Web.urljoin
          "http://example.com/" (Web.entry_linked "HTTPS://example.com/b.html") []
        = Some (Some d, tr)
        /\ Web.urljoin "http://example.com/" "HTTPS://example.com/b.html"
           = Ret "HTTPS://example.com/b.html"
        /\ URL d = "http://example.com/catalogue/HTTPS:/example.com/b.html"
        /\ URL d <> "HTTPS://example.com/b.html").
Proof.
  split; eexists _, _; (split; [vm_compute; reflexivity|]);
    (split; [vm_compute; reflexivity|]); (split; [reflexivity|discriminate]).
Qed.

(** C8, amended: for an entry that has its five pieces, the extractor
    returns a record whose URL is the link as it is when the text of the
    link starts with "http"; for any other link it removes one leading
    "../", puts "catalogue/" before it when the base address does not
    end with "/catalogue/", and joins the result to the base address with
    [urljoin]: the URL of the record is the address [urljoin] returns,
    and there is no record, and no request, when [urljoin] raises. The
    URL of every record is made this way; and "../book_1/index.html" on
    "http://example.com/catalogue/" gives
    "http://example.com/catalogue/book_1/index.html". *)
Theorem product_url_resolution :
  (forall (cfg : ScrapingConfig) (net : nat -> string -> response)
          (urljoin : string -> string -> result string)
          (base : string) (book : book_node) (tr : trace)
          (title text cls avail href : string),
      a_title book = Some title -> price_color_text book = Some text ->
      star_rating_class book = Some cls -> instock_text book = Some avail ->
      a_href book = Some href ->
      exists d tr',
        _extract_book_details cfg net urljoin base book tr = Some (d, tr')
        /\ (PyStr.startswith href "http" = true ->
            exists record, d = Some record /\ URL record = href)
        /\ (PyStr.startswith href "http" = false ->
            match urljoin base (catalogue_segment base +:+ without_parent_segment href) with
            | Ret address => exists record, d = Some record /\ URL record = address
            | Raise _ => d = None /\ tr' = tr ++ [Extract book None]
            end))
  /\ (forall (cfg : ScrapingConfig) (net : nat -> string -> response)
             (urljoin : string -> string -> result string)
             (base : string) (book : book_node) (tr : trace),
        exists d tr',
          _extract_book_details cfg net urljoin base book tr = Some (d, tr')
          /\ forall record : BookDetails,
               d = Some record ->
               exists href,
                 a_href book = Some href
                 /\ product_url_of urljoin base href = Ret (URL record))
  /\ product_url_of Web.urljoin "http://example.com/catalogue/" "../book_1/index.html"
     = Ret "http://example.com/catalogue/book_1/index.html".
Proof.
  split; [|split; [|vm_compute; reflexivity]].
  - intros cfg net urljoin base book tr title text cls avail href Ht Hp Hc Ha Hh.
    assert (Hrel : PyStr.startswith href "http" = false ->
                   product_url_of urljoin base href
                   = urljoin base (catalogue_segment base +:+ without_parent_segment href)).
    { intros H. unfold product_url_of, catalogue_segment, without_parent_segment.
      rewrite H. destruct (PyStr.endswith base "/catalogue/"); reflexivity. }
    assert (Habs : PyStr.startswith href "http" = true ->
                   product_url_of urljoin base href = Ret href).
    { intros H. unfold product_url_of. rewrite H. reflexivity. }
    unfold _extract_book_details. rewrite Ht, Hp, Hc, Ha, Hh.
    revert Hrel Habs.
    destruct (product_url_of urljoin base href) as [product_url|e] eqn:Hurl;
      rewrite <- Hurl; intros Hrel Habs.
    + destruct (retry_loop_spec cfg net (MAX_RETRIES cfg) product_url 0 "Unknown" tr)
        as (how & sub & evs & Heq & _); [lia|].
      unfold resolve_subcategory. rewrite Heq.
      eexists _, _. split; [reflexivity|]. split.
      * intros H. rewrite (Habs H) in Hurl. injection Hurl as <-.
        eexists. split; reflexivity.
      * intros H. rewrite <- (Hrel H), Hurl. eexists. split; reflexivity.
    + eexists _, _. split; [reflexivity|]. split.
      * intros H. rewrite (Habs H) in Hurl. discriminate Hurl.
      * intros H. rewrite <- (Hrel H), Hurl. split; reflexivity.
  - intros cfg net urljoin base book tr.
    destruct (extract_details_spec cfg net urljoin base book tr)
      as (d & evs & url & Heq & _).
    exists d, (tr ++ evs ++ [Extract book d]). split; [exact Heq|].
    intros record ->.
    destruct (extract_details_fields _ _ _ _ _ _ _ _ Heq)
      as (text & href & _ & _ & H3 & H4).
    exists href. split; assumption.
Qed.

Lemma product_url_resolution_witness :
  exists d tr',
    _extract_book_details config_py Web.net_down Web.urljoin
      "http://example.com/catalogue/" (Web.entry_linked "../book_1/index.html") []
    = Some (d, tr')
    /\ exists record,
         d = Some record
         /\ URL record = "http://example.com/catalogue/book_1/index.html".
Proof.
  destruct (proj1 product_url_resolution config_py Web.net_down Web.urljoin
              "http://example.com/catalogue/" (Web.entry_linked "../book_1/index.html") []
              "Book" (PyStr.pound +:+ "10.00") "One" "In stock" "../book_1/index.html"
              eq_refl eq_refl eq_refl eq_refl eq_refl)
    as (d & tr' & Heq & _ & Hrel).
  exists d, tr'. split; [exact Heq|].
  apply (Hrel eq_refl).
Defined.

(** *** Joining a link to the address of a fetched page *)

Lemma truthy_nonempty (s : string) : s <> "" -> PyStr.truthy s = true.
Proof.
  intros Hne. unfold PyStr.truthy.
  destruct (bool_decide_reflect (s = "")) as [H|_]; [destruct (Hne H)|reflexivity].
Qed.



Section Library.
Variable bracketed nfkc : string -> result unit.





End Library.

(** *** The crawl loop *)

(** The loop ends within the fuel the ceiling gives it, whatever the
    class defines, and its run satisfies the invariant. *)
Lemma crawl_run (cfg : ScrapingConfig) (net : nat -> string -> response)
    (urljoin : string -> string -> result string) (base_url : string) :
  exists r evs,
    crawl_loop cfg net urljoin (ceiling cfg) base_url (Some base_url) 0 [] []
    = Some (r, evs)
    /\ crawl_invariant urljoin net (ceiling cfg) 0 (Some base_url) [] r evs
    /\ (MAX_PAGES cfg = None -> evs = []).
Proof.
  unfold ceiling. destruct (MAX_PAGES cfg) as [max|] eqn:Hmax; simpl.
  - destruct (crawl_loop_spec cfg net urljoin max max Hmax base_url
                (Some base_url) 0 [] [])
      as (r & evs & Heq & Hinv); [lia|].
    exists r, evs. split; [exact Heq|]. split; [exact Hinv|]. intros H; discriminate H.
  - rewrite Hmax. destruct (PyStr.truthy base_url); simpl.
    + exists (Raise AttributeError), []. split; [reflexivity|]. split; [|reflexivity].
      unfold crawl_invariant. simpl.
      split; [intros; lia|]. split; [lia|]. split; [reflexivity|].
      split; [intros bd' H; discriminate H|].
      split; [intros H; inversion H|].
      split; [intros [|x rs1] resp rs2 H; discriminate H|].
      intros _ bd' [|x rs] s _ H; discriminate H.
    + exists (Ret []), []. split; [reflexivity|]. split; [|reflexivity].
      apply inv_stop. intros; lia.
Qed.


(** C7: a run of [scrape_books] ends, and when one of its listing
    requests fails with a [RequestException] (no answer, or a status
    that is not a success), that request is the last one of the run,
    nothing is requested again, and the next and last event is the
    writing of the file with exactly the records extracted before the
    failure; [scrape_books] returns the path when the file could be
    written. *)
Theorem listing_failure_keeps_records
    (cfg : ScrapingConfig) (net : nat -> string -> response)
    (urljoin : string -> string -> result string)
    (writable : bool) (dir base_url : string) :
  exists res evs,
    scrape_books cfg net urljoin writable dir base_url [] = Some (res, evs)
    /\ forall (u : string) (resp : response),
         In (Fetch Listing u resp) evs -> failed resp ->
         exists pre,
           evs = pre ++ [Fetch Listing u resp;
                         WriteCsv (csv_path dir) (extracted pre) writable]
           /\ Forall (fun x => ~ failed x) (listing_responses pre)
           /\ res = (if writable then Some (csv_path dir) else None).
Proof.
  unfold scrape_books. fold (ceiling cfg).
  destruct (crawl_run cfg net urljoin base_url)
    as (r & evs0 & Heq & (_ & _ & _ & _ & I4 & _ & _) & _).
  rewrite Heq.
  assert (Hsome : exists res evs,
             match r with
             | Ret books_data =>
                 Some (if writable then Some (csv_path dir) else None,
                       evs0 ++ [WriteCsv (csv_path dir) books_data writable])
             | Raise _ => Some (None, evs0)
             end = Some (res, evs)).
  { destruct r; eexists _, _; reflexivity. }
  destruct Hsome as (res & evs & Hrun). exists res, evs. split; [exact Hrun|].
  intros u resp Hin Hfailed.
  assert (Hin0 : In (Fetch Listing u resp) evs0).
  { destruct r as [bd|e]; injection Hrun as _ <-; [|exact Hin].
    apply in_app_or in Hin as [Hin|[Hin|[]]]; [exact Hin|discriminate Hin]. }
  destruct I4 as (pre & u' & resp' & -> & Hresp' & Hpre & ->).
  { apply List.Exists_exists. exists resp. split; [|exact Hfailed].
    apply (in_listing_responses u), Hin0. }
  injection Hrun as <- <-.
  apply in_app_or in Hin0 as [Hin0|[Hin0|[]]].
  - apply in_listing_responses in Hin0.
    rewrite List.Forall_forall in Hpre. destruct (Hpre resp Hin0 Hfailed).
  - injection Hin0 as -> ->. exists pre.
    rewrite <- app_assoc. repeat split. exact Hpre.
Qed.

Lemma listing_failure_keeps_records_witness :
  exists pre,
    Web.interrupted_run
    = pre ++ [Fetch Listing Web.page_2_url (BadStatus 503);
              WriteCsv (csv_path "raw_data") (extracted pre) true]
    /\ Forall (fun x => ~ failed x) (listing_responses pre)
    /\ Some "raw_data/books_data.csv" = Some (csv_path "raw_data").
Proof.
  destruct (listing_failure_keeps_records (Web.config_with_ceiling 5) Web.site
              Web.urljoin true "raw_data" Web.home) as (res & evs & Heq & H).
  assert (Hrun : scrape_books (Web.config_with_ceiling 5) Web.site Web.urljoin true
                   "raw_data" Web.home []
                 = Some (Some "raw_data/books_data.csv", Web.interrupted_run))
    by (vm_compute; reflexivity).
  rewrite Hrun in Heq. injection Heq as <- <-.
  apply H; [|reflexivity].
  right. right. right. left. reflexivity.
Defined.

(** *** The class as shipped *)

(** C9, as stated, fails on the empty base address: the loop condition
    is false before it reads the ceiling, nothing raises, an empty file
    is written, [scrape_books] returns its path and the handler answers
    200. *)
Lemma empty_base_url_answers_200 :
  scrape_books config_py Web.site Web.urljoin true "raw_data" "" []
  = Some (Some "raw_data/books_data.csv", [WriteCsv "raw_data/books_data.csv" [] true])
  /\ lambdaHandler config_py Web.site Web.urljoin true "raw_data"
       Web.run_scrapper_json_empty (Ret tt) Web.event_102 []
     = Some (mkResponse 200
               (PathBody "Scraping completed successfully"
                  (Some "raw_data/books_data.csv")),
             [WriteCsv "raw_data/books_data.csv" [] true]).
Proof. split; vm_compute; reflexivity. Qed.

(** C9, amended: the class of config.py defines no [MAX_PAGES]; for
    every base address that is not empty, the first evaluation of the
    loop condition raises before anything is requested, [scrape_books]
    catches it and returns [None], and the handler answers 500. *)
Theorem shipped_crawl_raises_before_any_request
    (net : nat -> string -> response)
    (urljoin : string -> string -> result string) (writable : bool)
    (dir base_url : string) (tr : trace) :
  base_url <> "" ->
  MAX_PAGES config_py = None
  /\ crawl_loop config_py net urljoin (ceiling config_py) base_url (Some base_url) 0 [] tr
     = Some (Raise AttributeError, tr)
  /\ scrape_books config_py net urljoin writable dir base_url tr = Some (None, tr)
  /\ (forall (scrapers : list scraper_config) (event : Event) (s : scraper_config),
        List.find (fun s => bool_decide
                     (Some (sc_id s)
                      = default ∅ (scraper_input event) !! "run_scraper_id")) scrapers
        = Some s ->
        sc_url s = base_url ->
        lambdaHandler config_py net urljoin writable dir (Ret scrapers) (Ret tt) event tr
        = Some (mkResponse 500 (PathBody "Scraping failed" None), tr)).
Proof.
  intros Hne.
  pose proof (truthy_nonempty _ Hne) as Htruthy.
  assert (Hloop : crawl_loop config_py net urljoin (ceiling config_py) base_url
                    (Some base_url) 0 [] tr = Some (Raise AttributeError, tr)).
  { apply crawl_loop_no_ceiling; [reflexivity|exact Htruthy]. }
  assert (Hscrape : scrape_books config_py net urljoin writable dir base_url tr
                    = Some (None, tr)).
  { unfold scrape_books. fold (ceiling config_py). rewrite Hloop. reflexivity. }
  split; [reflexivity|]. split; [exact Hloop|]. split; [exact Hscrape|].
  intros scrapers event s Hfind Hurl.
  unfold lambdaHandler, handler_body. rewrite Hfind, Hurl, Hscrape. reflexivity.
Qed.

Lemma shipped_crawl_raises_before_any_request_witness :
  scrape_books config_py Web.site Web.urljoin true "raw_data" Web.home [] = Some (None, [])
  /\ lambdaHandler config_py Web.site Web.urljoin true "raw_data"
       Web.run_scrapper_json (Ret tt) Web.event_102 []
     = Some (mkResponse 500 (PathBody "Scraping failed" None), []).
Proof.
  destruct (shipped_crawl_raises_before_any_request Web.site Web.urljoin true "raw_data"
              Web.home [])
    as (_ & _ & Hscrape & Hhandler); [discriminate|].
  split; [exact Hscrape|].
  apply (Hhandler _ _ (mkScraper "102" Web.home)); [vm_compute|]; reflexivity.
Defined.

End ScrappingProps.

(** ** More on the cleaning stage *)

Module ProcessingMore.
Import Processing CleanSpec CleanMore ProcessingProps.

(** The rows that survive [dropna] all have a Price, so their Price
    column is all missing only when there is no such row. *)
Lemma complete_prices_all_missing (rs : list Row) :
  forallb (fun c => negb (notna c)) (map Price (List.filter complete rs)) = true
  <-> List.filter complete rs = [].
Proof.
  split; [|intros ->; reflexivity].
  destruct (List.filter complete rs) as [|r l] eqn:Hf; [reflexivity|].
  assert (Hin : In r (List.filter complete rs)) by (rewrite Hf; left; reflexivity).
  apply filter_In in Hin as [_ Hc]. unfold complete in Hc.
  repeat (apply andb_true_iff in Hc as [Hc ?]).
  simpl. destruct (Price r); simpl in *; try discriminate; intros H'; discriminate H'.
Qed.

Lemma complete_prices_some_text (rs : list Row) :
  existsb is_str (map Price (List.filter complete rs)) = true
  <-> exists r, In r rs /\ complete r = true /\ is_str (Price r) = true.
Proof.
  rewrite existsb_exists. split.
  - intros (c & Hin & Hc). apply in_map_iff in Hin as (r & <- & Hin).
    apply filter_In in Hin as [Hin Hcomp]. exists r. auto.
  - intros (r & Hin & Hcomp & Hs). exists (Price r). split; [|exact Hs].
    apply in_map_iff. exists r. split; [reflexivity|].
    apply filter_In. auto.
Qed.

(** X1: cleaning raises nothing but [KeyError] and [AttributeError]:
    [KeyError] exactly when the frame lacks one of the five columns, and
    [AttributeError] exactly when it has them and the Price column is
    numeric, or some row has none of the five fields missing and no such
    row has a text Price. *)
Theorem clean_raises_exactly
    (str_to_float : string -> option number) (df : DataFrame) :
  (forall e, _clean_data str_to_float df = Raise e ->
             e = KeyError \/ e = AttributeError)
  /\ (_clean_data str_to_float df = Raise KeyError <->
      exists c, In c subset /\ has_column df c = false)
  /\ (_clean_data str_to_float df = Raise AttributeError <->
      (forall c, In c subset -> has_column df c = true)
      /\ (Price_dtype df = dt_numeric
          \/ ((exists r, In r (rows df) /\ complete r = true)
              /\ forall r, In r (rows df) -> complete r = true ->
                           is_str (Price r) = false))).
Proof.
  unfold _clean_data, dropna.
  destruct (forallb (has_column df) subset) eqn:Hcols.
  2:{ assert (Hno : exists c, In c subset /\ has_column df c = false).
      { apply not_true_iff_false in Hcols.
        destruct (existsb (fun c => negb (has_column df c)) subset) eqn:Hex.
        - apply existsb_exists in Hex as (c & Hin & Hc).
          exists c. split; [exact Hin|]. apply negb_true_iff, Hc.
        - exfalso. apply Hcols, forallb_forall. intros c Hin.
          destruct (has_column df c) eqn:Hc; [reflexivity|].
          assert (Ht : existsb (fun c => negb (has_column df c)) subset = true).
          { apply existsb_exists. exists c. rewrite Hc. auto. }
          rewrite Ht in Hex. discriminate Hex. }
      split; [intros e [= <-]; left; reflexivity|].
      split; [split; [intros _; exact Hno|reflexivity]|].
      split; [intros H; discriminate H|].
      intros [Hall _]. destruct Hno as (c & Hin & Hc).
      rewrite (Hall c Hin) in Hc. discriminate Hc. }
  pose proof (proj1 (forallb_forall _ _) Hcols) as Hall.
  assert (Hkey : forall x : result DataFrame,
             (exists e, x = Raise e /\ e <> KeyError) \/ (exists o, x = Ret o) ->
             x = Raise KeyError <-> exists c, In c subset /\ has_column df c = false).
  { intros x Hx. split.
    - intros ->. destruct Hx as [(e & [= <-] & He)|(o & Ho)];
        [destruct (He eq_refl)|discriminate Ho].
    - intros (c & Hin & Hc). rewrite (Hall c Hin) in Hc. discriminate Hc. }
  unfold str_accessor. cbn [Price_dtype rows columns]. clear Hcols.
  destruct (Price_dtype df).
  - destruct (forallb _ (map Price _)) eqn:Hmiss; cbn [orb].
    + apply complete_prices_all_missing in Hmiss.
      split; [intros e H; discriminate H|].
      split; [apply Hkey; right; eexists; reflexivity|].
      split; [intros H; discriminate H|].
      intros [_ [H|[(r & Hin & Hc) _]]]; [discriminate H|].
      assert (Hr : In r (List.filter complete (rows df))) by (apply filter_In; auto).
      rewrite Hmiss in Hr. destruct Hr.
    + destruct (existsb _ _) eqn:Hex.
      * apply complete_prices_some_text in Hex as (r & Hin & Hc & Hs).
        split; [intros e H; discriminate H|].
        split; [apply Hkey; right; eexists; reflexivity|].
        split; [intros H; discriminate H|].
        intros [_ [H|[_ Hno]]]; [discriminate H|].
        rewrite (Hno r Hin Hc) in Hs. discriminate Hs.
      * split; [intros e [= <-]; right; reflexivity|].
        split; [apply Hkey; left; eexists; split; [reflexivity|discriminate]|].
        split; [intros _|reflexivity].
        split; [exact Hall|right]. split.
        -- destruct (List.filter complete (rows df)) as [|r l] eqn:Hf.
           { simpl in Hmiss. discriminate Hmiss. }
           exists r. apply filter_In. rewrite Hf. left. reflexivity.
        -- intros r Hin Hc. destruct (is_str (Price r)) eqn:Hs; [|reflexivity].
           assert (Ht : existsb is_str (map Price (List.filter complete (rows df))) = true).
           { apply complete_prices_some_text. exists r. auto. }
           rewrite Ht in Hex. discriminate Hex.
  - split; [intros e [= <-]; right; reflexivity|].
    split; [apply Hkey; left; eexists; split; [reflexivity|discriminate]|].
    split; [intros _|reflexivity].
    split; [exact Hall|left; reflexivity].
Qed.

(** X2: a cleaned dataset cannot be cleaned again: its Price column is
    numeric, and the second pass raises [AttributeError]. *)
Theorem cleaning_twice_raises
    (str_to_float : string -> option number) (df out : DataFrame) :
  _clean_data str_to_float df = Ret out ->
  _clean_data str_to_float out = Raise AttributeError.
Proof.
  unfold _clean_data at 1, dropna.
  destruct (forallb (has_column df) subset) eqn:Hcols; [|intros H; discriminate H].
  cbn [rows Price_dtype columns].
  destruct (str_accessor _ _); [|intros H; discriminate H].
  intros H. injection H as <-.
  unfold _clean_data, dropna, has_column. cbn [columns].
  unfold has_column in Hcols. rewrite Hcols. reflexivity.
Qed.

Lemma cleaning_twice_raises_witness :
  _clean_data Sample.plain_decimal
    (mkFrame Sample.book_columns dt_numeric [Sample.book1_cleaned; Sample.book3_cleaned])
  = Raise AttributeError.
Proof.
  apply (cleaning_twice_raises Sample.plain_decimal Sample.scenario).
  vm_compute. reflexivity.
Defined.

Lemma kept_without_title (f : string -> option number) (r : Row) :
  kept f (without_title r) = false.
Proof. reflexivity. Qed.

(** X3: when a row that the cleaner keeps loses its Title, and both
    datasets can be cleaned, the cleaned output loses exactly that row:
    one record fewer, the others as they were. *)
Theorem missing_title_drops_one_row
    (str_to_float : string -> option number) (cols : list string) (dt : dtype)
    (before after : list Row) (r : Row) (out out' : DataFrame) :
  kept str_to_float r = true ->
  _clean_data str_to_float (mkFrame cols dt (before ++ r :: after)) = Ret out ->
  _clean_data str_to_float (mkFrame cols dt (before ++ without_title r :: after))
  = Ret out' ->
  exists a b,
    rows out = a ++ clean_row str_to_float r :: b
    /\ rows out' = a ++ b
    /\ length (rows out) = S (length (rows out')).
Proof.
  intros Hk H H'.
  rewrite (clean_rows _ _ _ H), (clean_rows _ _ _ H'). cbn [rows].
  rewrite !List.filter_app. cbn [List.filter]. rewrite Hk, kept_without_title.
  rewrite !map_app. cbn [map].
  eexists _, _. split; [reflexivity|]. split; [reflexivity|].
  rewrite !length_app. simpl. lia.
Qed.

Lemma missing_title_drops_one_row_witness :
  exists a b,
    [Sample.book1_cleaned; Sample.book3_cleaned]
    = a ++ clean_row Sample.plain_decimal
             (Sample.text_row "Book1" "10.00" 4 "in stock" "u1") :: b
    /\ [Sample.book3_cleaned] = a ++ b
    /\ length [Sample.book1_cleaned; Sample.book3_cleaned]
       = S (length [Sample.book3_cleaned]).
Proof.
  apply (missing_title_drops_one_row Sample.plain_decimal Sample.book_columns dt_object []
           (List.tl (rows Sample.scenario))
           (Sample.text_row "Book1" "10.00" 4 "in stock" "u1")
           (mkFrame Sample.book_columns dt_numeric [Sample.book1_cleaned; Sample.book3_cleaned])
           (mkFrame Sample.book_columns dt_numeric [Sample.book3_cleaned])).
  - vm_compute. reflexivity.
  - vm_compute. reflexivity.
  - vm_compute. reflexivity.
Defined.

(** *** The handler of the processing stage *)

Lemma find_first_match {A : Type} (p : A -> bool) (before after : list A) (x : A) :
  (forall y, In y before -> p y = false) -> p x = true ->
  List.find p (before ++ x :: after) = Some x.
Proof.
  intros Hb Hx. induction before as [|y before IH]; simpl.
  - rewrite Hx. reflexivity.
  - rewrite (Hb y (or_introl eq_refl)). apply IH.
    intros z Hz. apply Hb. right. exact Hz.
Qed.

Lemma find_no_match {A : Type} (p : A -> bool) (l : list A) :
  (forall y, In y l -> p y = false) -> List.find p l = None.
Proof.
  intros H. induction l as [|y l IH]; simpl; [reflexivity|].
  rewrite (H y (or_introl eq_refl)). apply IH.
  intros z Hz. apply H. right. exact Hz.
Qed.

(** X4: when run_raw_data.json lists the identifier asked for and the
    output directory can be made, the handler processes the path of the
    first entry that carries the identifier, and answers 200 with
    whatever [process_data] returned for it, a path or nothing. *)
Theorem processing_handler_uses_first_entry
    (str_to_float : string -> option number) (env : Env) (event : Event)
    (before after : list raw_data_file) (file_config : raw_data_file) :
  run_raw_data_json env = Ret (before ++ file_config :: after) ->
  (forall f, In f before -> Some (rd_id f) <> asked_id event) ->
  Some (rd_id file_config) = asked_id event ->
  makedirs env (PROCESSED_DATA_DIR env) = Ret tt ->
  lambdaHandler str_to_float env event
  = mkResponse 200
      (PathBody "Processing completed successfully"
         (process_data str_to_float env (rd_path file_config))).
Proof.
  intros Hjson Hbefore Hid Hmk. unfold lambdaHandler, handler_body.
  fold (asked_id event). rewrite Hjson.
  rewrite (find_first_match _ before after file_config).
  - rewrite Hmk. reflexivity.
  - intros f Hf. apply bool_decide_eq_false. apply Hbefore, Hf.
  - apply bool_decide_eq_true. exact Hid.
Qed.

Lemma processing_handler_uses_first_entry_witness :
  lambdaHandler Sample.plain_decimal scenario_env Sample.event_102
  = mkResponse 200
      (PathBody "Processing completed successfully"
         (process_data Sample.plain_decimal scenario_env "raw_data/books_data.csv")).
Proof.
  apply (processing_handler_uses_first_entry Sample.plain_decimal scenario_env
           Sample.event_102 [] [mkRawFile "102" "raw_data/other.csv"]
           (mkRawFile "102" "raw_data/books_data.csv")).
  - reflexivity.
  - intros f [].
  - vm_compute. reflexivity.
  - reflexivity.
Defined.

(** X5: when run_raw_data.json can be read and none of its entries
    carries the identifier asked for, the handler answers 500 with a
    [ValueError]; an event without ['processing_input'], or without
    ['raw_data_id'] in it, asks for no identifier and is such a case. *)
Theorem processing_handler_unknown_id
    (str_to_float : string -> option number) (env : Env) (event : Event)
    (files : list raw_data_file) :
  run_raw_data_json env = Ret files ->
  (asked_id event = None
   \/ forall f, In f files -> Some (rd_id f) <> asked_id event) ->
  lambdaHandler str_to_float env event
  = mkResponse 500 (ErrorBody "Processing failed" ValueError).
Proof.
  intros Hjson Hid. unfold lambdaHandler, handler_body.
  fold (asked_id event). rewrite Hjson.
  rewrite find_no_match; [reflexivity|].
  intros f Hf. apply bool_decide_eq_false.
  destruct Hid as [Hnone|Hno]; [rewrite Hnone; discriminate|apply Hno, Hf].
Qed.

Lemma processing_handler_unknown_id_witness :
  lambdaHandler Sample.plain_decimal scenario_env empty_event
  = mkResponse 500 (ErrorBody "Processing failed" ValueError).
Proof.
  apply (processing_handler_unknown_id Sample.plain_decimal scenario_env empty_event
           [mkRawFile "102" "raw_data/books_data.csv";
            mkRawFile "102" "raw_data/other.csv"]).
  - reflexivity.
  - left. reflexivity.
Defined.

End ProcessingMore.

(** ** More on the crawl *)

Module ScrappingMore.
Import Scrapping CrawlSpec CrawlMore ScrappingProps.

(** *** The rating of a record *)

Lemma rating_map_values (k : string) :
  rating_map !! k
  = if decide ("One" = k) then Some 1%Z
    else if decide ("Two" = k) then Some 2%Z
    else if decide ("Three" = k) then Some 3%Z
    else if decide ("Four" = k) then Some 4%Z
    else if decide ("Five" = k) then Some 5%Z
    else None.
Proof.
  unfold rating_map. cbn [list_to_map foldr uncurry fst snd].
  rewrite !lookup_insert, lookup_empty. reflexivity.
Qed.

Lemma resolve_total (cfg : ScrapingConfig) (net : nat -> string -> response)
    (url : string) (tr : trace) :
  exists sub evs,
    resolve_subcategory cfg net url tr = Some (sub, tr ++ evs)
    /\ Forall (detail_fetch_of url) evs
    /\ length evs <= MAX_RETRIES cfg.
Proof.
  unfold resolve_subcategory.
  destruct (retry_loop_spec cfg net (MAX_RETRIES cfg) url 0 "Unknown" tr)
    as (how & sub & evs & Heq & Hall & Hlen & _); [lia|].
  rewrite Heq. exists sub, evs. split; [reflexivity|]. split; [exact Hall|lia].
Qed.

(** What the record of an entry holds, apart from its Subcategory. *)
Lemma extract_details_record
    (cfg : ScrapingConfig) (net : nat -> string -> response)
    (urljoin : string -> string -> result string)
    (base : string) (book : book_node) (tr : trace) :
  exists d tr',
    _extract_book_details cfg net urljoin base book tr = Some (d, tr')
    /\ fields <$> d = entry_fields urljoin base book.
Proof.
  unfold _extract_book_details, entry_fields.
  destruct (a_title book) as [title|]; [|eexists _, _; split; reflexivity].
  destruct (price_color_text book) as [text|]; [|eexists _, _; split; reflexivity].
  destruct (star_rating_class book) as [cls|]; [|eexists _, _; split; reflexivity].
  destruct (instock_text book) as [avail|]; [|eexists _, _; split; reflexivity].
  destruct (a_href book) as [href|]; [|eexists _, _; split; reflexivity].
  destruct (product_url_of urljoin base href) as [product_url|e];
    [|eexists _, _; split; reflexivity].
  destruct (resolve_total cfg net product_url tr) as (sub & evs & Heq & _).
  rewrite Heq. eexists _, _. split; reflexivity.
Qed.

(** X6: the Rating of every record the extractor returns is between 0
    and 5, and it is 0 exactly when the rating word of the entry is none
    of One, Two, Three, Four, Five. *)
Theorem extracted_rating_in_range
    (cfg : ScrapingConfig) (net : nat -> string -> response)
    (urljoin : string -> string -> result string)
    (base : string) (book : book_node) (tr : trace) :
  exists d tr',
    _extract_book_details cfg net urljoin base book tr = Some (d, tr')
    /\ forall record : BookDetails,
         d = Some record ->
         (0 <= Rating record <= 5)%Z
         /\ forall cls, star_rating_class book = Some cls ->
                        (Rating record = 0%Z <-> ~ In cls rating_words).
Proof.
  destruct (extract_details_record cfg net urljoin base book tr)
    as (d & tr' & Heq & Hf).
  exists d, tr'. split; [exact Heq|]. intros record ->.
  unfold entry_fields in Hf.
  destruct (a_title book); [|discriminate Hf].
  destruct (price_color_text book); [|discriminate Hf].
  destruct (star_rating_class book) as [cls|]; [|discriminate Hf].
  destruct (instock_text book); [|discriminate Hf].
  destruct (a_href book) as [href|]; [|discriminate Hf].
  destruct (product_url_of urljoin base href); [|discriminate Hf].
  injection Hf as _ _ Hr _ _. rewrite Hr, rating_map_values. split.
  - repeat case_decide; simpl; lia.
  - intros cls' [= <-]. unfold rating_words.
    repeat case_decide; subst; simpl; split; intros Hx;
      try discriminate Hx; try reflexivity;
      try (exfalso; apply Hx; auto 10; fail).
    intros [Hy|[Hy|[Hy|[Hy|[Hy|[]]]]]]; congruence.
Qed.

(** *** The two strategies *)

(** X7: the breadcrumb comes first: when it has three entries or more
    and the text of the third, stripped, is not "Unknown", that text is
    the label, whatever the category navigation holds. Otherwise the
    label is the stripped text of the first active link of the category
    navigation, and "Unknown" when no link is active. *)
Theorem label_strategies (s : soup) :
  (forall lis,
      breadcrumb s = Some lis -> 3 <= length lis ->
      PyStr.strip (nth 2 lis "") <> "Unknown" ->
      label s = PyStr.strip (nth 2 lis ""))
  /\ ((breadcrumb s = None
       \/ exists lis, breadcrumb s = Some lis
                      /\ (length lis < 3 \/ PyStr.strip (nth 2 lis "") = "Unknown")) ->
      label s = match List.filter active (category_nav s) with
                | current :: _ => PyStr.strip (nav_text current)
                | [] => "Unknown"
                end).
Proof.
  unfold label, via_nav_list, via_breadcrumb. split.
  - intros lis -> Hlen Hne.
    destruct (Nat.leb_spec 3 (length lis)) as [_|Hlt]; [|lia].
    destruct (bool_decide_reflect (PyStr.strip (nth 2 lis "") = "Unknown")) as [H|_];
      [destruct (Hne H)|reflexivity].
  - intros Hb.
    assert (Hu : match breadcrumb s with
                 | Some lis =>
                     if (3 <=? length lis)%nat
                     then PyStr.strip (nth 2 lis "") else "Unknown"
                 | None => "Unknown"
                 end = "Unknown").
    { destruct Hb as [->|(lis & -> & [Hlt|Heq])]; [reflexivity| |].
      - destruct (Nat.leb_spec 3 (length lis)); [lia|reflexivity].
      - destruct (3 <=? length lis)%nat; [exact Heq|reflexivity]. }
    rewrite Hu. cbn [bool_decide].
    destruct (category_nav s) as [|x l]; reflexivity.
Qed.

(** *** The retry loop, request by request *)

Lemma requests_so_far_snoc (tr : trace) (k : fetch_kind) (u : string) (r : response) :
  requests_so_far (tr ++ [Fetch k u r]) = S (requests_so_far tr).
Proof.
  unfold requests_so_far. rewrite List.filter_app, length_app. simpl. lia.
Qed.

Lemma detail_requests_S (net : nat -> string -> response) (url : string) (n k : nat) :
  detail_requests net url n (S k)
  = Fetch Detail url (net n url) :: detail_requests net url (S n) k.
Proof.
  unfold detail_requests. simpl. rewrite Nat.add_0_r. f_equal.
  rewrite <- seq_shift, map_map. apply map_ext. intros j.
  rewrite Nat.add_succ_r. reflexivity.
Qed.

Lemma detail_requests_snoc (net : nat -> string -> response) (url : string) (n k : nat) :
  detail_requests net url n (S k)
  = detail_requests net url n k ++ [Fetch Detail url (net (n + k) url)].
Proof.
  unfold detail_requests. rewrite seq_S, map_app. reflexivity.
Qed.

Lemma requests_so_far_detail (net : nat -> string -> response) (url : string)
    (tr : trace) (n k : nat) :
  requests_so_far (tr ++ detail_requests net url n k) = requests_so_far tr + k.
Proof.
  induction k as [|k IH].
  - unfold detail_requests. simpl. rewrite app_nil_r. lia.
  - rewrite detail_requests_snoc, app_assoc, requests_so_far_snoc, IH. lia.
Qed.

Section Retry.
Variable cfg : ScrapingConfig.
Variable net : nat -> string -> response.
Variable url : string.

(** [k] responses without a label, while attempts remain, take the loop
    [k] turns further. *)
Lemma retry_steps (k : nat) :
  forall (fuel retries : nat) (tr : trace),
    retries + k < MAX_RETRIES cfg ->
    (forall j, j < k -> no_label (net (requests_so_far tr + j) url)) ->
    retry_loop cfg net (k + fuel) url retries "Unknown" tr
    = retry_loop cfg net fuel url (retries + k) "Unknown"
        (tr ++ detail_requests net url (requests_so_far tr) k).
Proof.
  induction k as [|k IH]; intros fuel retries tr Hlt Hno.
  - unfold detail_requests. simpl. rewrite Nat.add_0_r, app_nil_r. reflexivity.
  - assert (Hnext : forall r,
               net (requests_so_far tr) url = r ->
               retry_loop cfg net (k + fuel) url (retries + 1) "Unknown"
                 (tr ++ [Fetch Detail url r])
               = retry_loop cfg net fuel url (retries + S k) "Unknown"
                   (tr ++ detail_requests net url (requests_so_far tr) (S k))).
    { intros r Hr. rewrite IH; [|lia|].
      - rewrite requests_so_far_snoc, detail_requests_S, Hr, <- app_assoc.
        replace (retries + 1 + k) with (retries + S k) by lia. reflexivity.
      - intros j Hj. rewrite requests_so_far_snoc.
        replace (S (requests_so_far tr) + j) with (requests_so_far tr + S j) by lia.
        apply Hno. lia. }
    pose proof (Hno 0 ltac:(lia)) as H0. rewrite Nat.add_0_r in H0.
    cbn [Nat.add]. simpl.
    change (length (List.filter is_fetch tr)) with (requests_so_far tr).
    destruct (Nat.ltb_spec retries (MAX_RETRIES cfg)) as [_|Hge]; [|lia].
    destruct H0 as [Hf|(s & Hs & Hl)].
    + destruct (net (requests_so_far tr) url) as [s| |code|] eqn:Hnet;
        try discriminate Hf.
      * destruct (Nat.leb_spec (MAX_RETRIES cfg) (retries + 1)); [lia|].
        apply Hnext. reflexivity.
      * destruct (Nat.leb_spec (MAX_RETRIES cfg) (retries + 1)); [lia|].
        apply Hnext. reflexivity.
    + rewrite Hs. fold (label s). rewrite Hl. cbn [bool_decide negb].
      apply Hnext. exact Hs.
Qed.

End Retry.

(** X8: when the first [k] responses to the requests for a detail page
    are failures or pages without a label, [k] is less than
    [MAX_RETRIES], and the next response is a page with a label, the
    resolver returns that label after exactly [k + 1] requests. *)
Theorem first_labelled_page_decides
    (cfg : ScrapingConfig) (net : nat -> string -> response)
    (url : string) (tr : trace) (k : nat) (s : soup) :
  k < MAX_RETRIES cfg ->
  (forall j, j < k -> no_label (net (requests_so_far tr + j) url)) ->
  net (requests_so_far tr + k) url = Page s ->
  label s <> "Unknown" ->
  resolve_subcategory cfg net url tr
  = Some (label s, tr ++ detail_requests net url (requests_so_far tr) (S k)).
Proof.
  intros Hk Hno Hpage Hlabel. unfold resolve_subcategory.
  replace (MAX_RETRIES cfg) with (k + S (MAX_RETRIES cfg - S k)) at 1 by lia.
  rewrite retry_steps; [|lia|exact Hno].
  simpl.
  change (length (List.filter is_fetch (tr ++ detail_requests net url (requests_so_far tr) k)))
    with (requests_so_far (tr ++ detail_requests net url (requests_so_far tr) k)).
  rewrite requests_so_far_detail, Hpage.
  destruct (Nat.ltb_spec k (MAX_RETRIES cfg)) as [_|Hge]; [|lia].
  fold (label s).
  destruct (bool_decide_reflect (label s = "Unknown")) as [H|_]; [destruct (Hlabel H)|].
  cbn [negb]. rewrite detail_requests_snoc, Hpage, app_assoc. reflexivity.
Qed.

Lemma first_labelled_page_decides_witness :
  resolve_subcategory config_py flaky Web.attic_url []
  = Some ("Poetry",
          [Fetch Detail Web.attic_url TransportError;
           Fetch Detail Web.attic_url (Page (mkSoup [] None None []));
           Fetch Detail Web.attic_url (Page Web.attic_page)]).
Proof.
  apply (first_labelled_page_decides config_py flaky Web.attic_url [] 2 Web.attic_page).
  - simpl. lia.
  - intros [|[|j]] Hj; [left; reflexivity|right|lia].
    eexists. split; reflexivity.
  - reflexivity.
  - discriminate.
Defined.

(** X9: when every one of the first [MAX_RETRIES] responses to the
    requests for a detail page is a failure or a page without a label,
    the page is requested exactly [MAX_RETRIES] times, a page without a
    label counting like a failure, and the subcategory is "Unknown". *)
Theorem attempts_exhausted_without_label
    (cfg : ScrapingConfig) (net : nat -> string -> response)
    (url : string) (tr : trace) :
  (forall j, j < MAX_RETRIES cfg -> no_label (net (requests_so_far tr + j) url)) ->
  resolve_subcategory cfg net url tr
  = Some ("Unknown",
          tr ++ detail_requests net url (requests_so_far tr) (MAX_RETRIES cfg)).
Proof.
  intros Hno. unfold resolve_subcategory.
  destruct (MAX_RETRIES cfg) as [|m] eqn:Hmax.
  - simpl. rewrite Hmax. unfold detail_requests. simpl. rewrite app_nil_r. reflexivity.
  - replace (S m) with (m + 1) at 1 by lia.
    rewrite retry_steps; [|lia|intros j Hj; apply Hno; lia].
    pose proof (Hno m ltac:(lia)) as Hm.
    simpl. rewrite Hmax.
    change (length (List.filter is_fetch (tr ++ detail_requests net url (requests_so_far tr) m)))
      with (requests_so_far (tr ++ detail_requests net url (requests_so_far tr) m)).
    rewrite requests_so_far_detail.
    destruct (Nat.ltb_spec m (S m)) as [_|Hge]; [|lia].
    rewrite detail_requests_snoc, app_assoc.
    destruct Hm as [Hf|(s & Hs & Hl)].
    + destruct (net (requests_so_far tr + m) url) as [s| |code|];
        try discriminate Hf;
        (destruct (Nat.leb_spec (S m) (m + 1)); [reflexivity|lia]).
    + rewrite Hs. fold (label s). rewrite Hl. cbn [bool_decide negb].
      destruct (Nat.ltb_spec (m + 1) (S m)); [lia|reflexivity].
Qed.

Lemma attempts_exhausted_without_label_witness :
  resolve_subcategory config_py (fun _ _ => Page (mkSoup [] None None [])) Web.attic_url []
  = Some ("Unknown",
          detail_requests (fun _ _ => Page (mkSoup [] None None [])) Web.attic_url 0 3).
Proof.
  apply (attempts_exhausted_without_label config_py
           (fun _ _ => Page (mkSoup [] None None [])) Web.attic_url []).
  intros j _. right. eexists. split; reflexivity.
Defined.

(** X10: a response that is an exception other than a
    [RequestException] ends the retrying at once, with attempts left or
    not: after [k] responses without a label and that one, the resolver
    has made [k + 1] requests and the subcategory is "Unknown". *)
Theorem other_exception_stops_retrying
    (cfg : ScrapingConfig) (net : nat -> string -> response)
    (url : string) (tr : trace) (k : nat) :
  k < MAX_RETRIES cfg ->
  (forall j, j < k -> no_label (net (requests_so_far tr + j) url)) ->
  net (requests_so_far tr + k) url = Crash ->
  resolve_subcategory cfg net url tr
  = Some ("Unknown", tr ++ detail_requests net url (requests_so_far tr) (S k)).
Proof.
  intros Hk Hno Hcrash. unfold resolve_subcategory.
  replace (MAX_RETRIES cfg) with (k + S (MAX_RETRIES cfg - S k)) at 1 by lia.
  rewrite retry_steps; [|lia|exact Hno].
  simpl.
  change (length (List.filter is_fetch (tr ++ detail_requests net url (requests_so_far tr) k)))
    with (requests_so_far (tr ++ detail_requests net url (requests_so_far tr) k)).
  rewrite requests_so_far_detail, Hcrash.
  destruct (Nat.ltb_spec k (MAX_RETRIES cfg)) as [_|Hge]; [|lia].
  rewrite detail_requests_snoc, Hcrash, app_assoc. reflexivity.
Qed.

Lemma other_exception_stops_retrying_witness :
  resolve_subcategory config_py (fun _ _ => Crash) Web.attic_url []
  = Some ("Unknown", [Fetch Detail Web.attic_url Crash]).
Proof.
  apply (other_exception_stops_retrying config_py (fun _ _ => Crash) Web.attic_url [] 0).
  - simpl. lia.
  - intros j Hj. lia.
  - reflexivity.
Defined.

(** *** Where the subcategory of a record comes from *)

Lemma retry_loop_label (cfg : ScrapingConfig) (net : nat -> string -> response)
    (url : string) (fuel : nat) :
  forall (retries : nat) (tr tr' : trace) (how : loop_exit) (sub : string),
    retry_loop cfg net fuel url retries "Unknown" tr = Some (how, sub, tr') ->
    sub = "Unknown"
    \/ exists pre s, tr' = pre ++ [Fetch Detail url (Page s)] /\ sub = label s.
Proof.
  induction fuel as [|fuel IH]; intros retries tr tr' how sub; simpl.
  - destruct (retries <? MAX_RETRIES cfg)%nat; [intros H; discriminate H|].
    intros [= _ <- _]. left. reflexivity.
  - destruct (retries <? MAX_RETRIES cfg)%nat;
      [|intros [= _ <- _]; left; reflexivity].
    destruct (net (length (List.filter is_fetch tr)) url) as [s| |code|].
    + fold (label s).
      destruct (bool_decide_reflect (label s = "Unknown")) as [Hu|Hl]; cbn [negb].
      * rewrite Hu. apply IH.
      * intros [= _ <- <-]. right. exists tr, s. split; reflexivity.
    + destruct (MAX_RETRIES cfg <=? retries + 1)%nat;
        [intros [= _ <- _]; left; reflexivity|apply IH].
    + destruct (MAX_RETRIES cfg <=? retries + 1)%nat;
        [intros [= _ <- _]; left; reflexivity|apply IH].
    + intros [= _ <- _]. left. reflexivity.
Qed.

(** X17: the Subcategory of a record is "Unknown", or it is the label
    found on the detail page of the record, and that page is the answer
    to the last request made for the entry. *)
Theorem subcategory_provenance
    (cfg : ScrapingConfig) (net : nat -> string -> response)
    (urljoin : string -> string -> result string)
    (base : string) (book : book_node) (tr : trace) :
  exists d tr',
    _extract_book_details cfg net urljoin base book tr = Some (d, tr')
    /\ forall record : BookDetails,
         d = Some record ->
         Subcategory record = "Unknown"
         \/ exists pre s,
              tr' = pre ++ [Fetch Detail (URL record) (Page s);
                            Extract book (Some record)]
              /\ Subcategory record = label s.
Proof.
  unfold _extract_book_details, resolve_subcategory.
  destruct (a_title book) as [title|];
    [|eexists _, _; split; [reflexivity|intros record H; discriminate H]].
  destruct (price_color_text book) as [text|];
    [|eexists _, _; split; [reflexivity|intros record H; discriminate H]].
  destruct (star_rating_class book) as [cls|];
    [|eexists _, _; split; [reflexivity|intros record H; discriminate H]].
  destruct (instock_text book) as [avail|];
    [|eexists _, _; split; [reflexivity|intros record H; discriminate H]].
  destruct (a_href book) as [href|];
    [|eexists _, _; split; [reflexivity|intros record H; discriminate H]].
  destruct (product_url_of urljoin base href) as [product_url|e];
    [|eexists _, _; split; [reflexivity|intros record H; discriminate H]].
  destruct (retry_loop_spec cfg net (MAX_RETRIES cfg) product_url
              0 "Unknown" tr) as (how & sub & evs & Heq & _); [lia|].
  rewrite Heq. eexists _, _. split; [reflexivity|].
  intros record [= <-]. simpl.
  destruct (retry_loop_label _ _ _ _ _ _ _ _ _ Heq) as [Hu|(pre & s & Hpre & Hs)];
    [left; exact Hu|right].
  exists pre, s. split; [|exact Hs].
  rewrite Hpre, <- app_assoc. reflexivity.
Qed.

Lemma subcategory_provenance_witness :
  Subcategory (Web.attic_details "Poetry") = "Unknown"
  \/ exists pre s,
       [Fetch Detail Web.attic_url (Page Web.attic_page);
        Extract Web.attic (Some (Web.attic_details "Poetry"))]
       = pre ++ [Fetch Detail (URL (Web.attic_details "Poetry")) (Page s);
                 Extract Web.attic (Some (Web.attic_details "Poetry"))]
       /\ Subcategory (Web.attic_details "Poetry") = label s.
Proof.
  destruct (subcategory_provenance config_py Web.site Web.urljoin Web.home Web.attic [])
    as (d & tr' & Heq & H).
  assert (Hrun : _extract_book_details config_py Web.site Web.urljoin Web.home
                   Web.attic []
                 = Some (Some (Web.attic_details "Poetry"),
                         [Fetch Detail Web.attic_url (Page Web.attic_page);
                          Extract Web.attic (Some (Web.attic_details "Poetry"))]))
    by (vm_compute; reflexivity).
  rewrite Hrun in Heq. injection Heq as <- <-.
  apply H. reflexivity.
Defined.

End ScrappingMore.

(** ** Whole runs of the crawl *)

Module CrawlRuns.
Import Scrapping CrawlSpec CrawlMore ScrappingProps ScrappingMore.

Lemma listing_requests_app (a b : trace) :
  listing_requests (a ++ b) = listing_requests a ++ listing_requests b.
Proof.
  induction a as [|[[] u r|bk d|p bd ok] a IH]; simpl; rewrite ?IH; reflexivity.
Qed.

Lemma listing_responses_of_requests (evs : trace) :
  listing_responses evs = map snd (listing_requests evs).
Proof.
  induction evs as [|[[] u r|bk d|p bd ok] evs IH]; simpl; rewrite ?IH; reflexivity.
Qed.

(** A log of detail requests: no listing request, no write, and every
    event a detail request. *)
Lemma detail_only_requests (url : string) (evs : trace) :
  Forall (detail_fetch_of url) evs ->
  listing_requests evs = [] /\ List.filter is_write evs = []
  /\ length (List.filter is_detail_fetch evs) = length evs.
Proof.
  induction 1 as [|e evs [r ->] _ (IH1 & IH2 & IH3)]; simpl; [repeat split|].
  rewrite IH1, IH2, IH3. repeat split.
Qed.

Section Run.
Variable cfg : ScrapingConfig.
Variable net : nat -> string -> response.
Variable urljoin : string -> string -> result string.

(** *** The entries of one page *)

Lemma extract_books_block (base : string) (books : list book_node) :
  forall (bd : list BookDetails) (tr : trace),
  exists evs,
    extract_books cfg net urljoin base books bd tr
    = Some (bd ++ extracted evs, tr ++ evs)
    /\ entries_block cfg books evs
    /\ map fields (extracted evs) = omap (entry_fields urljoin base) books.
Proof.
  unfold entries_block.
  induction books as [|book books IH]; intros bd tr; simpl.
  - exists []. rewrite !app_nil_r. simpl. repeat split. lia.
  - destruct (extract_details_spec cfg net urljoin base book tr)
      as (d & evs & url & Heq & Hall & Hlen).
    destruct (extract_details_record cfg net urljoin base book tr)
      as (d' & tr' & Heq' & Hf).
    rewrite Heq in Heq'. injection Heq' as <- _.
    destruct (detail_only url evs Hall) as (_ & Hlp & Hcalls & Hex).
    destruct (detail_only_requests url evs Hall) as (Hlr & Hw & Hd).
    rewrite Heq. rewrite <- Hf.
    assert (Hgoal : forall bd1 : list BookDetails,
               bd1 = bd ++ extracted [Extract book d] ->
               exists evs0,
                 extract_books cfg net urljoin base books bd1
                   (tr ++ evs ++ [Extract book d])
                 = Some (bd ++ extracted evs0, tr ++ evs0)
                 /\ (extract_calls evs0 = book :: books
                     /\ listing_requests evs0 = []
                     /\ listing_pages evs0 = []
                     /\ List.filter is_write evs0 = []
                     /\ length (List.filter is_detail_fetch evs0)
                        <= MAX_RETRIES cfg * S (length books))
                 /\ map fields (extracted evs0)
                    = match fields <$> d with
                      | Some y => y :: omap (entry_fields urljoin base) books
                      | None => omap (entry_fields urljoin base) books
                      end).
    { intros bd1 ->.
      destruct (IH (bd ++ extracted [Extract book d]) (tr ++ evs ++ [Extract book d]))
        as (evs' & Heq' & (Hc' & Hlr' & Hlp' & Hw' & Hd') & Hf').
      exists ((evs ++ [Extract book d]) ++ evs').
      rewrite Heq'.
      rewrite !extracted_app, !extract_calls_app, !listing_requests_app,
        !listing_pages_app, !List.filter_app, !length_app,
        Hlr, Hlp, Hcalls, Hex, Hw, Hd, Hc', Hlr', Hlp', Hw', !map_app, Hf'.
      rewrite <- !app_assoc.
      split; [reflexivity|]. split.
      - repeat split. destruct d; simpl; nia.
      - destruct d; reflexivity. }
    destruct d as [d|]; apply Hgoal; simpl; rewrite ?app_nil_r; reflexivity.
Qed.

(** *** Induction on the turns of the crawl loop *)

Section Induction.
Variable max : nat.
Hypothesis Hmax : MAX_PAGES cfg = Some max.
Variable base : string.

(** A property of a run: the address, the page counter, the records and
    the log it starts from, the result and the events it ends with. *)
Variable P : option string -> nat -> list BookDetails -> trace ->
             result (list BookDetails) -> trace -> Prop.

Hypothesis P_stop :
  forall page_url pc bd tr,
    (forall url, page_url = Some url -> PyStr.truthy url = true -> max <= pc) ->
    P page_url pc bd tr (Ret bd) [].

Hypothesis P_failed :
  forall url pc bd tr resp,
    PyStr.truthy url = true -> pc < max ->
    net (requests_so_far tr) url = resp -> failed resp ->
    P (Some url) pc bd tr (Ret bd) [Fetch Listing url resp].

Hypothesis P_crash :
  forall url pc bd tr,
    PyStr.truthy url = true -> pc < max ->
    net (requests_so_far tr) url = Crash ->
    P (Some url) pc bd tr (Raise OtherError) [Fetch Listing url Crash].

Hypothesis P_page :
  forall url pc bd tr s evx,
    PyStr.truthy url = true -> pc < max ->
    net (requests_so_far tr) url = Page s ->
    entries_block cfg (product_pods s) evx ->
    map fields (extracted evx) = omap (entry_fields urljoin base) (product_pods s) ->
    match li_next s with
    | Some (Some h) =>
        match urljoin url h with
        | Ret next =>
            forall r evs',
              P (Some next) (pc + 1) (bd ++ extracted evx)
                ((tr ++ [Fetch Listing url (Page s)]) ++ evx) r evs' ->
              P (Some url) pc bd tr r (Fetch Listing url (Page s) :: evx ++ evs')
        | Raise e =>
            P (Some url) pc bd tr (Raise e) (Fetch Listing url (Page s) :: evx)
        end
    | Some None =>
        P (Some url) pc bd tr (Raise TypeError) (Fetch Listing url (Page s) :: evx)
    | None =>
        P (Some url) pc bd tr (Ret (bd ++ extracted evx))
          (Fetch Listing url (Page s) :: evx)
    end.

Lemma crawl_loop_ind (fuel : nat) :
  forall (page_url : option string) (pc : nat) (bd : list BookDetails) (tr : trace),
    max - pc <= fuel ->
    exists r evs,
      crawl_loop cfg net urljoin fuel base page_url pc bd tr = Some (r, tr ++ evs)
      /\ P page_url pc bd tr r evs.
Proof.
  assert (Hstop : forall fuel page_url pc bd tr,
             (forall url, page_url = Some url -> PyStr.truthy url = true -> max <= pc) ->
             exists r evs,
               crawl_loop cfg net urljoin fuel base page_url pc bd tr
               = Some (r, tr ++ evs)
               /\ P page_url pc bd tr r evs).
  { intros f page_url pc bd tr H. exists (Ret bd), [].
    rewrite app_nil_r. split; [|apply P_stop, H].
    destruct page_url as [url|]; [|apply crawl_loop_no_url].
    specialize (H url eq_refl).
    destruct f; simpl; destruct (PyStr.truthy url); simpl; try reflexivity;
      rewrite Hmax; (destruct (Nat.ltb_spec pc max); [specialize (H eq_refl); lia|]);
      reflexivity. }
  induction fuel as [|fuel IH]; intros page_url pc bd tr Hfuel.
  { apply Hstop. intros; lia. }
  destruct page_url as [url|]; [|apply Hstop; intros; discriminate].
  destruct (PyStr.truthy url) eqn:Htruthy;
    [|apply Hstop; intros u [= <-] Hu; rewrite Htruthy in Hu; discriminate].
  destruct (Nat.lt_ge_cases pc max) as [Hlt|Hge];
    [|apply Hstop; intros; exact Hge].
  simpl. rewrite Htruthy, Hmax. simpl.
  destruct (Nat.ltb_spec pc max) as [_|Hge]; [|lia].
  change (length (List.filter is_fetch tr)) with (requests_so_far tr).
  destruct (net (requests_so_far tr) url) as [s| |code|] eqn:Hnet.
  - destruct (extract_books_block base (product_pods s) bd
                (tr ++ [Fetch Listing url (Page s)]))
      as (evx & Hx & Hblock & Hfields).
    rewrite Hx.
    pose proof (P_page url pc bd tr s evx Htruthy Hlt Hnet Hblock Hfields) as Hpage.
    destruct (li_next s) as [[h|]|] eqn:Hnext.
    + destruct (urljoin url h) as [next|e] eqn:Hurl.
      * destruct (IH (Some next) (pc + 1) (bd ++ extracted evx)
                    ((tr ++ [Fetch Listing url (Page s)]) ++ evx))
          as (r & evs' & Heq & HP); [lia|].
        exists r, (Fetch Listing url (Page s) :: evx ++ evs').
        split; [rewrite Heq, <- !app_assoc; reflexivity|].
        apply Hpage, HP.
      * exists (Raise e), (Fetch Listing url (Page s) :: evx).
        split; [rewrite <- !app_assoc; reflexivity|exact Hpage].
    + exists (Raise TypeError), (Fetch Listing url (Page s) :: evx).
      split; [rewrite <- !app_assoc; reflexivity|exact Hpage].
    + rewrite crawl_loop_no_url.
      exists (Ret (bd ++ extracted evx)), (Fetch Listing url (Page s) :: evx).
      split; [rewrite <- !app_assoc; reflexivity|exact Hpage].
  - exists (Ret bd), [Fetch Listing url TransportError].
    split; [reflexivity|]. apply P_failed; [assumption..|reflexivity].
  - exists (Ret bd), [Fetch Listing url (BadStatus code)].
    split; [reflexivity|]. apply P_failed; [assumption..|reflexivity].
  - exists (Raise OtherError), [Fetch Listing url Crash].
    split; [reflexivity|]. apply P_crash; assumption.
Qed.

End Induction.

(** *** The facts of a run, by that induction *)

(** A request whose next link is refused is answered by a page with a
    next link. *)
Lemma refused_head (url : string) (resp : response) (l : list (string * response)) :
  Exists (next_link_refused urljoin) ((url, resp) :: l) ->
  (exists s h e, resp = Page s /\ li_next s = Some (Some h) /\ urljoin url h = Raise e)
  \/ Exists (next_link_refused urljoin) l.
Proof.
  intros H. inversion H as [? ? Hr|? ? Hr]; [left; exact Hr|right; exact Hr].
Qed.

Lemma run_facts_hold (max : nat) (base : string) (fuel : nat) :
  MAX_PAGES cfg = Some max ->
  forall (page_url : option string) (pc : nat) (bd : list BookDetails) (tr : trace),
    max - pc <= fuel ->
    exists r evs,
      crawl_loop cfg net urljoin fuel base page_url pc bd tr = Some (r, tr ++ evs)
      /\ run_facts cfg urljoin base max page_url pc bd r evs.
Proof.
  intros Hmax.
  apply (crawl_loop_ind max Hmax base
           (fun page_url pc bd _ r evs =>
              run_facts cfg urljoin base max page_url pc bd r evs)).
  - (* the loop condition is false *)
    intros page_url pc bd tr _. unfold run_facts. simpl.
    split; [reflexivity|]. split; [lia|]. split; [lia|].
    split; [destruct page_url; [exact I|reflexivity]|].
    split.
    { split; [intros [H|[[]|H]]; inversion H|intros [e H]; discriminate H]. }
    split; [reflexivity|].
    intros bd' [= <-]. rewrite app_nil_r. reflexivity.
  - (* the listing request fails *)
    intros url pc bd tr resp _ Hpc _ Hfailed. unfold run_facts.
    assert (Hnp : listing_pages [Fetch Listing url resp] = []).
    { destruct resp; [discriminate Hfailed|reflexivity..]. }
    rewrite Hnp. simpl.
    split; [reflexivity|]. split; [lia|]. split; [lia|]. split; [split; [reflexivity|exact I]|].
    split.
    { split; [|intros [e H]; discriminate H].
      intros [H|[[H|[]]|H]]; [inversion H|subst resp; discriminate Hfailed|].
      apply refused_head in H as [(s & h & e & -> & _)|H];
        [discriminate Hfailed|inversion H]. }
    split; [reflexivity|].
    intros bd' [= <-]. rewrite app_nil_r. reflexivity.
  - (* the listing request raises something else *)
    intros url pc bd tr _ Hpc _. unfold run_facts. simpl.
    split; [reflexivity|]. split; [lia|]. split; [lia|]. split; [split; [reflexivity|exact I]|].
    split.
    { split; [intros _; eexists; reflexivity|intros _; right; left; left; reflexivity]. }
    split; [reflexivity|].
    intros bd' H; discriminate H.
  - (* a page is received and its entries extracted *)
    intros url pc bd tr s evx _ Hpc _ (Hcalls & Hlrq & Hlp & Hw & Hd) Hfields.
    assert (Hlr : listing_responses evx = []).
    { rewrite listing_responses_of_requests, Hlrq. reflexivity. }
    destruct (li_next s) as [[h|]|] eqn:Hnext; [destruct (urljoin url h) as [next|e] eqn:Hurl| |].
    + intros r evs' (I1 & I2 & I3 & I4 & I5 & I6 & I7). unfold run_facts. simpl.
      rewrite !List.filter_app, !length_app, extract_calls_app, listing_requests_app,
        listing_pages_app, listing_responses_app, extracted_app,
        Hw, I1, Hcalls, Hlrq, Hlp, Hlr, length_app. simpl.
      split; [reflexivity|]. split; [nia|]. split; [lia|].
      split.
      { split; [reflexivity|].
        destruct (listing_requests evs') as [|x l] eqn:Hl; [exact I|].
        exists s, h, next. repeat split; [exact Hnext|exact Hurl|exact I4]. }
      split.
      { rewrite <- I5. split.
        - intros [H|[[H|H]|H]]; [|discriminate H|right; left; exact H|].
          + inversion H as [? ? Hb|? ? Hb]; [|left; exact Hb].
            unfold broken_next in Hb. rewrite Hnext in Hb. discriminate Hb.
          + apply refused_head in H as [(s0 & h0 & e & [= <-] & Hn & He)|H];
              [|right; right; exact H].
            rewrite Hnext in Hn. injection Hn as <-.
            rewrite Hurl in He. discriminate He.
        - intros [H|[H|H]];
            [left; right; exact H|right; left; right; exact H|right; right; right; exact H]. }
      split; [rewrite map_app, omap_app, Hfields, I6; reflexivity|].
      intros bd' H. rewrite app_assoc. apply I7, H.
    + unfold run_facts. simpl.
      rewrite Hw, Hcalls, Hlrq, Hlp, Hlr. simpl. rewrite app_nil_r.
      split; [reflexivity|]. split; [exact Hd|]. split; [lia|].
      split; [split; [reflexivity|exact I]|].
      split.
      { split; [intros _; eexists; reflexivity|intros _; right; right].
        constructor. exists s, h, e. repeat split; assumption. }
      split; [exact Hfields|].
      intros bd' H; discriminate H.
    + unfold run_facts. simpl.
      rewrite Hw, Hcalls, Hlrq, Hlp, Hlr. simpl. rewrite app_nil_r.
      split; [reflexivity|]. split; [exact Hd|]. split; [lia|].
      split; [split; [reflexivity|exact I]|].
      split.
      { split; [intros _; eexists; reflexivity|intros _; left; left; exact Hnext]. }
      split; [exact Hfields|].
      intros bd' H; discriminate H.
    + unfold run_facts. simpl.
      rewrite Hw, Hcalls, Hlrq, Hlp, Hlr. simpl. rewrite app_nil_r.
      split; [reflexivity|]. split; [exact Hd|]. split; [lia|].
      split; [split; [reflexivity|exact I]|].
      split.
      { split; [|intros [e H]; discriminate H].
        intros [H|[[H|[]]|H]]; [|discriminate H|].
        - inversion H as [? ? Hb|? ? Hb]; [|inversion Hb].
          unfold broken_next in Hb. rewrite Hnext in Hb. discriminate Hb.
        - apply refused_head in H as [(s0 & h0 & e & [= <-] & Hn & _)|H];
            [|inversion H].
          rewrite Hnext in Hn. discriminate Hn. }
      split; [exact Hfields|].
      intros bd' [= <-]. reflexivity.
Qed.

End Run.

(** *** The crawl loop as [scrape_books] starts it *)

Lemma fetch_count (evs : trace) :
  length (List.filter is_fetch evs)
  = length (listing_requests evs) + length (List.filter is_detail_fetch evs).
Proof.
  induction evs as [|[[] u r|bk d|p bd ok] evs IH]; simpl; lia.
Qed.

(** The crawl loop as [scrape_books] starts it, with or without a
    ceiling in the class. *)
Lemma crawl_facts (cfg : ScrapingConfig) (net : nat -> string -> response)
    (urljoin : string -> string -> result string) (base_url : string) :
  exists r evs,
    crawl_loop cfg net urljoin (ceiling cfg) base_url (Some base_url) 0 [] []
    = Some (r, evs)
    /\ List.filter is_write evs = []
    /\ length (List.filter is_detail_fetch evs)
       <= MAX_RETRIES cfg * length (extract_calls evs)
    /\ length (listing_requests evs) <= ceiling cfg
    /\ link_chain urljoin base_url (listing_requests evs)
    /\ ((exists e, r = Raise e) <->
        Exists broken_next (listing_pages evs) \/ In Crash (listing_responses evs)
        \/ Exists (next_link_refused urljoin) (listing_requests evs)
        \/ (MAX_PAGES cfg = None /\ base_url <> ""))
    /\ map fields (extracted evs)
       = omap (entry_fields urljoin base_url)
           (flat_map product_pods (listing_pages evs))
    /\ (forall bd, r = Ret bd -> bd = extracted evs).
Proof.
  unfold ceiling. destruct (MAX_PAGES cfg) as [max|] eqn:Hmax; simpl.
  - destruct (run_facts_hold cfg net urljoin max base_url max Hmax
                (Some base_url) 0 [] [])
      as (r & evs & Heq & I1 & I2 & I3 & I4 & I5 & I6 & I7); [lia|].
    exists r, evs. split; [exact Heq|]. split; [exact I1|]. split; [exact I2|].
    split; [lia|]. split; [exact I4|]. split.
    { rewrite <- I5. split; [tauto|].
      intros [H|[H|[H|[H _]]]]; [tauto|tauto|tauto|discriminate H]. }
    split; [exact I6|exact I7].
  - rewrite Hmax. unfold PyStr.truthy.
    destruct (bool_decide_reflect (base_url = "")) as [Hempty|Hne]; simpl.
    + exists (Ret []), []. simpl. split; [reflexivity|]. split; [reflexivity|].
      split; [lia|]. split; [lia|]. split; [exact I|]. split.
      { split; [intros [e H]; discriminate H|].
        intros [H|[[]|[H|[_ H]]]]; [inversion H|inversion H|destruct (H Hempty)]. }
      split; [reflexivity|]. intros bd [= <-]. reflexivity.
    + exists (Raise AttributeError), []. simpl. split; [reflexivity|].
      split; [reflexivity|]. split; [lia|]. split; [lia|]. split; [exact I|]. split.
      { split; [intros _; right; right; right; split; [reflexivity|exact Hne]|].
        intros _. eexists. reflexivity. }
      split; [reflexivity|]. intros bd H; discriminate H.
Qed.



End CrawlRuns.

(** ** What [scrape_books] and the handler return *)

Module ScrapeResults.
Import Scrapping CrawlSpec CrawlMore ScrappingProps ScrappingMore CrawlRuns.

(** X11: a run of [scrape_books] makes at most [MAX_RETRIES] detail
    requests for each entry it extracts, and its requests altogether are
    at most the page ceiling plus [MAX_RETRIES] times the number of
    entries extracted. *)
Theorem crawl_work_bounded
    (cfg : ScrapingConfig) (net : nat -> string -> response)
    (urljoin : string -> string -> result string)
    (writable : bool) (dir base_url : string) :
  exists res evs,
    scrape_books cfg net urljoin writable dir base_url [] = Some (res, evs)
    /\ length (List.filter is_detail_fetch evs)
       <= MAX_RETRIES cfg * length (extract_calls evs)
    /\ length (List.filter is_fetch evs)
       <= ceiling cfg + MAX_RETRIES cfg * length (extract_calls evs).
Proof.
  unfold scrape_books. fold (ceiling cfg).
  destruct (crawl_facts cfg net urljoin base_url) as (r & evs & Heq & _ & Hd & Hl & _).
  rewrite Heq. pose proof (fetch_count evs) as Hc.
  destruct r as [bd|e]; eexists _, _; (split; [reflexivity|]).
  - rewrite !List.filter_app, extract_calls_app. simpl. rewrite !app_nil_r. lia.
  - lia.
Qed.

(** X12: the listing requests of a run of [scrape_books] follow the
    next links: the first asks for the base address, and each one after
    it asks for the address [urljoin] returned for the address of the
    page before it and the next link of that page. *)
Theorem listing_requests_follow_links
    (cfg : ScrapingConfig) (net : nat -> string -> response)
    (urljoin : string -> string -> result string)
    (writable : bool) (dir base_url : string) :
  exists res evs,
    scrape_books cfg net urljoin writable dir base_url [] = Some (res, evs)
    /\ link_chain urljoin base_url (listing_requests evs).
Proof.
  unfold scrape_books. fold (ceiling cfg).
  destruct (crawl_facts cfg net urljoin base_url)
    as (r & evs & Heq & _ & _ & _ & Hchain & _).
  rewrite Heq.
  destruct r as [bd|e]; eexists _, _; (split; [reflexivity|]); [|exact Hchain].
  rewrite listing_requests_app. simpl. rewrite app_nil_r. exact Hchain.
Qed.



(** X14: when [scrape_books] returns a path, it is the path of
    books_data.csv in the raw-data directory, the file was written once,
    as the last thing, and its rows are, in the order of the pages and of
    the entries on them, the entries that have all five pieces and a
    link [urljoin] accepts, with Title, Price, Rating, Availability and
    URL as computed from the entry. *)
Theorem written_file_holds_all_records
    (cfg : ScrapingConfig) (net : nat -> string -> response)
    (urljoin : string -> string -> result string)
    (writable : bool) (dir base_url : string) :
  exists res evs,
    scrape_books cfg net urljoin writable dir base_url [] = Some (res, evs)
    /\ forall path,
         res = Some path ->
         path = csv_path dir
         /\ exists rows pre,
              evs = pre ++ [WriteCsv (csv_path dir) rows true]
              /\ List.filter is_write pre = []
              /\ rows = extracted pre
              /\ map fields rows
                 = omap (entry_fields urljoin base_url)
                     (flat_map product_pods (listing_pages pre)).
Proof.
  unfold scrape_books. fold (ceiling cfg).
  destruct (crawl_facts cfg net urljoin base_url)
    as (r & evs & Heq & Hw & _ & _ & _ & _ & Hrec & Hbd).
  rewrite Heq.
  destruct r as [bd|e]; eexists _, _; (split; [reflexivity|]);
    [|intros path H; discriminate H].
  intros path H. destruct writable; [|discriminate H]. injection H as <-.
  split; [reflexivity|]. exists bd, evs.
  rewrite (Hbd bd eq_refl). repeat split; assumption.
Qed.

Lemma written_file_holds_all_records_witness :
  exists rows pre,
    two_entries_run = pre ++ [WriteCsv (csv_path "raw_data") rows true]
    /\ List.filter is_write pre = []
    /\ rows = extracted pre
    /\ map fields rows
       = omap (entry_fields Web.urljoin "http://example.com/catalogue/")
           (flat_map product_pods (listing_pages pre)).
Proof.
  destruct (written_file_holds_all_records (Web.config_with_ceiling 5) site_two_entries
              Web.urljoin true "raw_data" "http://example.com/catalogue/")
    as (res & evs & Heq & H).
  assert (Hrun : scrape_books (Web.config_with_ceiling 5) site_two_entries Web.urljoin
                   true "raw_data" "http://example.com/catalogue/" []
                 = Some (Some "raw_data/books_data.csv", two_entries_run))
    by (vm_compute; reflexivity).
  rewrite Hrun in Heq. injection Heq as <- <-.
  apply (H "raw_data/books_data.csv" eq_refl).
Defined.

(** *** The handler of the crawl *)




(** X16: when run_scrapper.json can be read and none of its entries
    carries the identifier asked for (an event without the key names
    none), the handler of the crawl answers 500 with a [ValueError], and
    nothing is requested or written. *)
Theorem scraping_handler_unknown_id
    (cfg : ScrapingConfig) (net : nat -> string -> response)
    (urljoin : string -> string -> result string)
    (writable : bool) (dir : string) (scrapers : list scraper_config)
    (makedirs : result unit) (event : Event) (tr : trace) :
  (asked_scraper event = None
   \/ forall s, In s scrapers -> Some (sc_id s) <> asked_scraper event) ->
  lambdaHandler cfg net urljoin writable dir (Ret scrapers) makedirs event tr
  = Some (mkResponse 500 (ErrorBody "Scraping failed" ValueError), tr).
Proof.
  intros Hid. unfold lambdaHandler, handler_body. fold (asked_scraper event).
  rewrite ProcessingMore.find_no_match; [reflexivity|].
  intros s Hs. apply bool_decide_eq_false.
  destruct Hid as [Hnone|Hno]; [rewrite Hnone; discriminate|apply Hno, Hs].
Qed.

Lemma scraping_handler_unknown_id_witness :
  lambdaHandler config_py Web.site Web.urljoin true "raw_data" Web.run_scrapper_json
    (Ret tt) no_scraper_event []
  = Some (mkResponse 500 (ErrorBody "Scraping failed" ValueError), []).
Proof.
  apply (scraping_handler_unknown_id config_py Web.site Web.urljoin true "raw_data"
           [mkScraper "102" Web.home] (Ret tt) no_scraper_event []).
  left. reflexivity.
Defined.

End ScrapeResults.
